(** * The Replica reconstruction driver

    A shallow embedding of
    [nvblox/evaluation/replica/replica_reconstruction.py]: the function
    [replica_reconstruction] and the [__main__] block that calls it.

    The script is glue code: it asks the [replica] helper module for a
    dataset name, a default binary location and an output directory, checks
    that the binary is a regular file, prints four lines and launches the
    binary with [subprocess.run].  The embedding keeps that shape: a state
    and exception monad over a world made of a file system and a trace of
    the driver's observable actions, with the collaborators that are not
    part of the script taken as parameters, and with the two library calls
    of the script that can raise by themselves, [Path.is_file()] and
    [print], given a host that decides when they do. *)

From Stdlib Require Import String Ascii List ZArith Bool Lia.
From ExtLib Require Import Structures.Monad.
Import ListNotations.
Import MonadNotation.
Local Open Scope string_scope.
Local Open Scope monad_scope.

(* ===================================================================== *)
(** ** Strings *)
(* ===================================================================== *)

Module Str.

(** [s.startswith("-")]. *)
Definition starts_with_dash (s : string) : bool :=
  match s with
  | String c _ => Ascii.eqb c "-"
  | EmptyString => false
  end.

(** [s.endswith(suf)]. *)
Fixpoint ends_with (suf s : string) : bool :=
  if String.eqb suf s then true
  else match s with
       | EmptyString => false
       | String _ r => ends_with suf r
       end.

(** [s.split(sep)] for a one-character separator. *)
Fixpoint split (sep : ascii) (s : string) : list string :=
  match s with
  | EmptyString => [EmptyString]
  | String c r =>
      if Ascii.eqb c sep then EmptyString :: split sep r
      else match split sep r with
           | h :: t => String c h :: t
           | [] => [String c EmptyString]
           end
  end.

(** [s.split(sep, 1)] when [sep] occurs in [s]; [None] when it does not. *)
Fixpoint split_once (sep : ascii) (s : string) : option (string * string) :=
  match s with
  | EmptyString => None
  | String c r =>
      if Ascii.eqb c sep then Some (EmptyString, r)
      else match split_once sep r with
           | Some (h, t) => Some (String c h, t)
           | None => None
           end
  end.

Definition mem (s : string) (l : list string) : bool :=
  existsb (String.eqb s) l.

(** The tab character of the f-strings ["...:\t{...}"]. *)
Definition tab : string := String (ascii_of_nat 9) EmptyString.

End Str.

(* ===================================================================== *)
(** ** pathlib *)
(* ===================================================================== *)

(** [pathlib.PurePosixPath], as far as the script uses it: a path is its
    root (empty, ["/"] or ["//"]) and its components; construction from a
    string drops empty and ["."] components, as pathlib does. *)
Module Pathlib.

Record Path : Type := mkPath { root : string; parts : list string }.

Definition root_of (s : string) : string :=
  match s with
  | String "/" (String "/" (String "/" _)) => "/"
  | String "/" (String "/" _) => "//"
  | String "/" _ => "/"
  | _ => ""
  end.

Definition keep_part (c : string) : bool :=
  negb (String.eqb c "" || String.eqb c ".").

(** [Path(s)]. *)
Definition of_string (s : string) : Path :=
  mkPath (root_of s) (filter keep_part (Str.split "/" s)).

(** [p.joinpath(q)]: an anchored right operand replaces the left one. *)
Definition joinpath (p q : Path) : Path :=
  if String.eqb (root q) "" then mkPath (root p) (parts p ++ parts q)
  else q.

(** [p / s] with a string on the right, as in
    [output_dir / 'reconstructed_mesh.ply']. *)
Definition truediv (p : Path) (s : string) : Path :=
  joinpath p (of_string s).

(** [str(p)], which is also what [f"{p}"] formats. *)
Definition to_string (p : Path) : string :=
  match parts p with
  | [] => if String.eqb (root p) "" then "." else root p
  | _ :: _ => root p ++ String.concat "/" (parts p)
  end.

(** [p.name]. *)
Definition name (p : Path) : string := last (parts p) "".

(** [p.parent]. *)
Definition parent (p : Path) : Path := mkPath (root p) (removelast (parts p)).

Definition eq_dec (p q : Path) : {p = q} + {p <> q}.
Proof.
  decide equality.
  - apply (list_eq_dec string_dec).
  - apply string_dec.
Defined.

Definition eqb (p q : Path) : bool := if eq_dec p q then true else false.

End Pathlib.

Export Pathlib(Path, mkPath).
Notation "p // s" := (Pathlib.truediv p s) (at level 40, left associativity).

(* ===================================================================== *)
(** ** Python outcomes, the world and the driver's monad *)
(* ===================================================================== *)

(** The exceptions that occur: the driver's own [Exception], an [OSError]
    coming out of a collaborator or of [is_file], the [UnicodeEncodeError]
    of a [print] whose line standard output cannot encode, and argparse's
    [SystemExit]. *)
Inductive PyExc : Type :=
| Exception (msg : string)
| OSError (msg : string)
| SystemExit (code : Z)
| UnicodeEncodeError (msg : string).

Inductive Outcome (A : Type) : Type :=
| Returned (a : A)
| Raised (e : PyExc).
Arguments Returned {A} a.
Arguments Raised {A} e.

(** What a path names in the file system. *)
Inductive FileKind : Type := RegularFile | Directory.

Definition FS : Type := Path -> option FileKind.

(** Whether [p] names an existing regular file. *)
Definition regular_file (files : FS) (p : Path) : bool :=
  match files p with
  | Some RegularFile => true
  | _ => false
  end.

(** [subprocess.CompletedProcess]. *)
Record CompletedProcess : Type :=
  mkCompleted { args : list string; returncode : Z }.

(** The driver's observable actions, in the order it performs them. *)
Inductive Event : Type :=
| EvDatasetName (dataset_root : Path)
| EvDefaultBinary
| EvIsFile (p : Path)
| EvGetOutputDir (dataset_name : string) (output_root : option Path)
| EvPrint (line : string)
| EvRun (argv : list string).

Record World : Type := mkWorld { fs : FS; trace : list Event }.

Definition M (A : Type) : Type := World -> Outcome A * World.

#[export] Instance Monad_M : Monad M :=
  {| ret := fun _ a w => (Returned a, w);
     bind := fun _ _ m k w =>
               match m w with
               | (Returned a, w') => k a w'
               | (Raised e, w') => (Raised e, w')
               end |}.

(** [raise e]. *)
Definition raise {A : Type} (e : PyExc) : M A := fun w => (Raised e, w).

Definition log (e : Event) : M unit :=
  fun w => (Returned tt, mkWorld (fs w) (trace w ++ [e])).

(** A collaborator that reads and writes the file system and may raise. *)
Definition on_fs {A : Type} (c : FS -> Outcome A * FS) : M A :=
  fun w => let (r, fs') := c (fs w) in (r, mkWorld fs' (trace w)).

(** The subprocess launches among a list of events. *)
Fixpoint launched (t : list Event) : list (list string) :=
  match t with
  | [] => []
  | EvRun argv :: t' => argv :: launched t'
  | _ :: t' => launched t'
  end.

(** The lines printed among a list of events. *)
Fixpoint printed (t : list Event) : list string :=
  match t with
  | [] => []
  | EvPrint l :: t' => l :: printed t'
  | _ :: t' => printed t'
  end.

(** The output-directory requests among a list of events. *)
Fixpoint output_dir_requests (t : list Event) : list (string * option Path) :=
  match t with
  | [] => []
  | EvGetOutputDir n r :: t' => (n, r) :: output_dir_requests t'
  | _ :: t' => output_dir_requests t'
  end.

(** The number of default-location lookups among a list of events. *)
Fixpoint default_lookups (t : list Event) : nat :=
  match t with
  | [] => 0
  | EvDefaultBinary :: t' => S (default_lookups t')
  | _ :: t' => default_lookups t'
  end.

(* ===================================================================== *)
(** ** Collaborators *)
(* ===================================================================== *)

(** The three functions of the [replica] module that the script calls, and
    [subprocess.run] with the operating system and the external binary
    behind it.  None of them is part of the script; they are parameters of
    the embedding.  Naming a dataset and locating the default binary read
    nothing but their arguments; resolving the output directory and running
    the binary act on the file system and may raise. *)
Record Collaborators : Type := {
  dataset_name_of : Path -> string;
  default_fuse_replica_binary_path : Path;
  output_dir_helper : string -> option Path -> FS -> Outcome Path * FS;
  run_process : list string -> FS -> Outcome CompletedProcess * FS
}.

(** The host the script runs on: the collaborators, and what decides
    whether the two library calls of the script raise.  [Path.is_file()]
    answers [False] when [stat] finds nothing at the path and re-raises
    every other [OSError] of [stat] (a name that is too long, a directory
    that may not be searched); [print] raises when standard output rejects
    the line (a character it cannot encode, a closed pipe). *)
Record Host : Type := mkHost {
  collaborators : Collaborators;
  stat_failure : FS -> Path -> option PyExc;
  print_failure : string -> option PyExc
}.

(** The host on which neither [is_file] nor [print] ever raises. *)
Definition reliable (env : Collaborators) : Host :=
  mkHost env (fun _ _ => None) (fun _ => None).

Section Driver.

Variable host : Host.

Let env : Collaborators := collaborators host.

(** [replica.get_dataset_name_from_dataset_root_path(dataset_path)]. *)
Definition get_dataset_name_from_dataset_root_path (dataset_path : Path)
  : M string :=
  log (EvDatasetName dataset_path) ;;
  ret (dataset_name_of env dataset_path).

(** [replica.get_default_fuse_replica_binary_path()]. *)
Definition get_default_fuse_replica_binary_path : M Path :=
  log EvDefaultBinary ;;
  ret (default_fuse_replica_binary_path env).

(** [replica.get_output_dir(dataset_name, output_root_path)]. *)
Definition get_output_dir (dataset_name : string)
  (output_root_path : option Path) : M Path :=
  log (EvGetOutputDir dataset_name output_root_path) ;;
  on_fs (output_dir_helper env dataset_name output_root_path).

(** [path.is_file()]. *)
Definition is_file (p : Path) : M bool :=
  log (EvIsFile p) ;;
  fun w => match stat_failure host (fs w) p with
           | Some e => (Raised e, w)
           | None => (Returned (regular_file (fs w) p), w)
           end.

(** [print(line)]. *)
Definition print (line : string) : M unit :=
  match print_failure host line with
  | Some e => raise e
  | None => log (EvPrint line)
  end.

(** [subprocess.run(argv)]. *)
Definition subprocess_run (argv : list string) : M CompletedProcess :=
  log (EvRun argv) ;;
  on_fs (run_process env argv).

(** [def replica_reconstruction(dataset_path, output_root_path=None,
    fuse_replica_binary_path=None)], lines 28 to 73. *)
Definition replica_reconstruction (dataset_path : Path)
  (output_root_path : option Path) (fuse_replica_binary_path : option Path)
  : M (Path * Path) :=
  dataset_name <- get_dataset_name_from_dataset_root_path dataset_path ;;
  fuse_replica_binary_path <-
    match fuse_replica_binary_path with
    | None => get_default_fuse_replica_binary_path
    | Some p => ret p
    end ;;
  found <- is_file fuse_replica_binary_path ;;
  (if negb found
   then raise (Exception ("Cant find binary at:"
                          ++ Pathlib.to_string fuse_replica_binary_path))
   else ret tt) ;;
  output_dir <- get_output_dir dataset_name output_root_path ;;
  let reconstructed_mesh_path := output_dir // "reconstructed_mesh.ply" in
  let reconstructed_esdf_path := output_dir // "reconstructed_esdf.ply" in
  print ("Running executable at:" ++ Str.tab
         ++ Pathlib.to_string fuse_replica_binary_path) ;;
  print ("On the dataset at:" ++ Str.tab ++ Pathlib.to_string dataset_path) ;;
  print ("Outputting mesh at:" ++ Str.tab
         ++ Pathlib.to_string reconstructed_mesh_path) ;;
  print ("Outputting esdf at:" ++ Str.tab
         ++ Pathlib.to_string reconstructed_esdf_path) ;;
  let mesh_output_path_flag := "--mesh_output_path" in
  let esdf_output_path_flag := "--esdf_output_path" in
  subprocess_run [Pathlib.to_string fuse_replica_binary_path;
                  Pathlib.to_string dataset_path;
                  mesh_output_path_flag;
                  Pathlib.to_string reconstructed_mesh_path;
                  esdf_output_path_flag;
                  Pathlib.to_string reconstructed_esdf_path] ;;
  ret (reconstructed_mesh_path, reconstructed_esdf_path).

End Driver.

(** The executable the driver settles on: the caller's, or the default. *)
Definition resolved_binary (env : Collaborators) (b : option Path) : Path :=
  match b with
  | None => default_fuse_replica_binary_path env
  | Some p => p
  end.

(** The same installation with another behaviour of the launched process. *)
Definition with_process (env : Collaborators)
  (rp : list string -> FS -> Outcome CompletedProcess * FS) : Collaborators :=
  {| dataset_name_of := dataset_name_of env;
     default_fuse_replica_binary_path := default_fuse_replica_binary_path env;
     output_dir_helper := output_dir_helper env;
     run_process := rp |}.

(** The output-directory helper answers with a directory that its two
    arguments determine, whatever the file system holds. *)
Definition output_dir_determined (env : Collaborators) : Prop :=
  forall n r files1 files2 out1 out2 files1' files2',
    output_dir_helper env n r files1 = (Returned out1, files1') ->
    output_dir_helper env n r files2 = (Returned out2, files2') ->
    out1 = out2.

(** The events of a call up to and including the existence check. *)
Definition preamble (env : Collaborators) (d : Path) (b : option Path)
  : list Event :=
  EvDatasetName d
    :: (match b with None => [EvDefaultBinary] | Some _ => [] end
        ++ [EvIsFile (resolved_binary env b)])%list.

(** The four progress lines. *)
Definition progress (bin d out : Path) : list Event :=
  [EvPrint ("Running executable at:" ++ Str.tab ++ Pathlib.to_string bin);
   EvPrint ("On the dataset at:" ++ Str.tab ++ Pathlib.to_string d);
   EvPrint ("Outputting mesh at:" ++ Str.tab
            ++ Pathlib.to_string (out // "reconstructed_mesh.ply"));
   EvPrint ("Outputting esdf at:" ++ Str.tab
            ++ Pathlib.to_string (out // "reconstructed_esdf.ply"))].

(** The command line handed to [subprocess.run]. *)
Definition fuse_replica_command (bin d out : Path) : list string :=
  [Pathlib.to_string bin; Pathlib.to_string d;
   "--mesh_output_path";
   Pathlib.to_string (out // "reconstructed_mesh.ply");
   "--esdf_output_path";
   Pathlib.to_string (out // "reconstructed_esdf.ply")].

(** The four lines that a call prints, in order. *)
Definition progress_lines (bin d out : Path) : list string :=
  ["Running executable at:" ++ Str.tab ++ Pathlib.to_string bin;
   "On the dataset at:" ++ Str.tab ++ Pathlib.to_string d;
   "Outputting mesh at:" ++ Str.tab
   ++ Pathlib.to_string (out // "reconstructed_mesh.ply");
   "Outputting esdf at:" ++ Str.tab
   ++ Pathlib.to_string (out // "reconstructed_esdf.ply")].

(** Printing lines in turn: the events of the lines that went out, and the
    exception of the first line that standard output rejected, if any. *)
Fixpoint printing (pr : string -> option PyExc) (lines : list string)
  : list Event * option PyExc :=
  match lines with
  | [] => ([], None)
  | l :: rest =>
      match pr l with
      | Some e => ([], Some e)
      | None => let (evs, r) := printing pr rest in (EvPrint l :: evs, r)
      end
  end.

(* ===================================================================== *)
(** ** argparse *)
(* ===================================================================== *)

(** The part of [argparse] that the entry point relies on.  A parser is the
    list of its declared arguments.  Parsing follows argparse on command
    lines made of plain tokens (empty, or not starting with a dash, or the
    single dash), of the declared option strings, and of the form
    [--option=value]; on any other token (abbreviated or clustered options,
    the [--] separator, negative numbers) [parse_args] answers [None]: those
    rules of argparse are left outside the model.  The usage and help texts
    that argparse prints before it exits are not recorded. *)
Module Argparse.

Inductive Action : Type := Store | Help.

(** A declared argument; a positional has no option strings.  Every
    [Store] argument of the script is declared with [type=Path]. *)
Record Argument : Type := mkArgument {
  option_strings : list string;
  dest : string;
  action : Action;
  required : bool
}.

Definition ArgumentParser : Type := list Argument.

(** [argparse.ArgumentParser(description=...)]: [add_help] is on. *)
Definition new_parser : ArgumentParser :=
  [mkArgument ["-h"; "--help"] "help" Help false].

Fixpoint lstrip_dash (s : string) : string :=
  match s with
  | String "-" r => lstrip_dash r
  | _ => s
  end.

Fixpoint dash_to_underscore (s : string) : string :=
  match s with
  | EmptyString => EmptyString
  | String c r =>
      String (if Ascii.eqb c "-" then "_"%char else c) (dash_to_underscore r)
  end.

(** [parser.add_argument(name, type=Path, help=...)]: a name that starts
    with a dash declares an option that is not required, any other name a
    required positional. *)
Definition add_argument (p : ArgumentParser) (name : string)
  : ArgumentParser :=
  if Str.starts_with_dash name
  then (p ++ [mkArgument [name] (dash_to_underscore (lstrip_dash name))
                Store false])%list
  else (p ++ [mkArgument [] name Store true])%list.

Definition positionals (p : ArgumentParser) : list Argument :=
  filter (fun a => match option_strings a with [] => true | _ => false end) p.

Definition find_option (p : ArgumentParser) (s : string) : option Argument :=
  find (fun a => Str.mem s (option_strings a)) p.

(** The parsed arguments: destination and value, the latest first.  A
    destination that is absent reads as [None]. *)
Definition Namespace : Type := list (string * Path).

Definition getattr (ns : Namespace) (d : string) : option Path :=
  match find (fun kv => String.eqb (fst kv) d) ns with
  | Some kv => Some (snd kv)
  | None => None
  end.

Inductive Token : Type :=
| TArg (s : string)
| TOpt (a : Argument) (explicit : option string)
| TOutside.

Definition classify (p : ArgumentParser) (tok : string) : Token :=
  if negb (Str.starts_with_dash tok) then TArg tok
  else match find_option p tok with
       | Some a => TOpt a None
       | None =>
           if (String.length tok =? 1)%nat then TArg tok
           else match Str.split_once "=" tok with
                | Some (o, v) =>
                    match find_option p o with
                    | Some (mkArgument os d Store r) =>
                        if String.eqb v "--" then TOutside
                        else TOpt (mkArgument os d Store r) (Some v)
                    | _ => TOutside
                    end
                | None => TOutside
                end
       end.

Definition is_outside (t : Token) : bool :=
  match t with TOutside => true | _ => false end.

Record State : Type := mkState {
  ns : Namespace;
  pending : list Argument;
  extras : list string
}.

Definition store (a : Argument) (v : string) (st : State) : State :=
  mkState ((dest a, Pathlib.of_string v) :: ns st) (pending st) (extras st).

(** One pass over the classified tokens, left to right. *)
Fixpoint consume (toks : list Token) (st : State) : option (Outcome State) :=
  match toks with
  | [] => Some (Returned st)
  | TOutside :: _ => None
  | TArg s :: rest =>
      match pending st with
      | a :: more =>
          consume rest
            (mkState ((dest a, Pathlib.of_string s) :: ns st) more (extras st))
      | [] => consume rest (mkState (ns st) [] (extras st ++ [s])%list)
      end
  | TOpt a None :: rest =>
      match action a with
      | Help => Some (Raised (SystemExit 0))
      | Store =>
          match rest with
          | TArg v :: rest' => consume rest' (store a v st)
          | _ => Some (Raised (SystemExit 2))
          end
      end
  | TOpt a (Some v) :: rest =>
      match action a with
      | Help => None
      | Store => consume rest (store a v st)
      end
  end.

(** A required argument left unfilled, or a token left over, is an error:
    argparse prints a usage message and exits with status 2. *)
Definition finish (st : State) : Outcome Namespace :=
  if existsb required (pending st) then Raised (SystemExit 2)
  else match extras st with
       | [] => Returned (ns st)
       | _ :: _ => Raised (SystemExit 2)
       end.

(** [parser.parse_args()] on [sys.argv[1:]]. *)
Definition parse_args (p : ArgumentParser) (argv : list string)
  : option (Outcome Namespace) :=
  let toks := map (classify p) argv in
  if existsb is_outside toks then None
  else match consume toks (mkState [] (positionals p) []) with
       | None => None
       | Some (Raised e) => Some (Raised e)
       | Some (Returned st) => Some (finish st)
       end.

End Argparse.

(* ===================================================================== *)
(** ** The command-line entry point *)
(* ===================================================================== *)

Section EntryPoint.

Variable host : Host.

(** The parser built by lines 78 to 87. *)
Definition parser : Argparse.ArgumentParser :=
  let parser := Argparse.new_parser in
  let parser := Argparse.add_argument parser "dataset_path" in
  let parser := Argparse.add_argument parser "--output_root_path" in
  Argparse.add_argument parser "--fuse_replica_binary_path".

(** The [__main__] block, lines 76 to 93, on [sys.argv[1:]]; [None] when
    the command line is outside the modelled part of argparse. *)
Definition main (argv : list string) : option (M unit) :=
  match Argparse.parse_args parser argv with
  | None => None
  | Some (Raised e) => Some (raise e)
  | Some (Returned args) =>
      match Argparse.getattr args "dataset_path" with
      | Some dataset_path =>
          Some (replica_reconstruction host dataset_path
                  (Argparse.getattr args "output_root_path")
                  (Argparse.getattr args "fuse_replica_binary_path") ;;
                ret tt)
      | None => None
      end
  end.

End EntryPoint.

(** Command lines in the usual shape: the dataset and the two flags, each
    flag followed by its value, in any order and any number. *)
Inductive CmdItem : Type :=
| Dataset (d : string)
| OutputRoot (o : string)
| Binary (b : string).

Definition render_item (it : CmdItem) : list string :=
  match it with
  | Dataset d => [d]
  | OutputRoot o => ["--output_root_path"; o]
  | Binary b => ["--fuse_replica_binary_path"; b]
  end.

Definition render (items : list CmdItem) : list string :=
  flat_map render_item items.

Definition plain_item (it : CmdItem) : bool :=
  negb (Str.starts_with_dash
          match it with Dataset s | OutputRoot s | Binary s => s end).

Definition datasets (items : list CmdItem) : list string :=
  flat_map (fun it => match it with Dataset d => [d] | _ => [] end) items.

(** The value a repeated flag ends up with: the last one given. *)
Definition last_output_root (items : list CmdItem) (init : option Path)
  : option Path :=
  fold_left (fun acc it => match it with
                           | OutputRoot o => Some (Pathlib.of_string o)
                           | _ => acc
                           end) items init.

Definition last_binary (items : list CmdItem) (init : option Path)
  : option Path :=
  fold_left (fun acc it => match it with
                           | Binary b => Some (Pathlib.of_string b)
                           | _ => acc
                           end) items init.

(** The three arguments that the script declares. *)
Definition dataset_argument : Argparse.Argument :=
  Argparse.mkArgument [] "dataset_path" Argparse.Store true.

Definition output_root_argument : Argparse.Argument :=
  Argparse.mkArgument ["--output_root_path"] "output_root_path"
    Argparse.Store false.

Definition binary_argument : Argparse.Argument :=
  Argparse.mkArgument ["--fuse_replica_binary_path"] "fuse_replica_binary_path"
    Argparse.Store false.

(** The classified tokens of an item whose value is a plain token. *)
Definition item_tokens (it : CmdItem) : list Argparse.Token :=
  match it with
  | Dataset d => [Argparse.TArg d]
  | OutputRoot o =>
      [Argparse.TOpt output_root_argument None; Argparse.TArg o]
  | Binary b => [Argparse.TOpt binary_argument None; Argparse.TArg b]
  end.

(* ===================================================================== *)
(** ** A concrete installation *)
(* ===================================================================== *)

(** An installation to run the driver on: the binary sits in the build
    folder, the output directory is the dataset's name below the output
    root and is created on request, and the binary is a stub that writes
    nothing and exits with the given status. *)
Module Stub.

Definition binary : Path :=
  Pathlib.of_string "/opt/nvblox/build/executables/fuse_replica".

Definition default_output_root : Path :=
  Pathlib.of_string "/opt/nvblox/evaluation/replica/output".

Definition mkdir (d : Path) (files : FS) : FS :=
  fun p => if Pathlib.eqb p d then Some Directory else files p.

Definition env (exit_status : Z) : Collaborators :=
  {| dataset_name_of := Pathlib.name;
     default_fuse_replica_binary_path := binary;
     output_dir_helper := fun n r files =>
       let d := match r with
                | Some p => p
                | None => default_output_root
                end // n in
       (Returned d, mkdir d files);
     run_process := fun argv files =>
       (Returned (mkCompleted argv exit_status), files) |}.

(** The binary is installed; nothing else is. *)
Definition installed : FS :=
  fun p => if Pathlib.eqb p binary then Some RegularFile else None.

(** Nothing is installed. *)
Definition empty : FS := fun _ => None.

Definition office0 : Path := Pathlib.of_string "/data/replica/office0".

(** Where the results for [office0] go by default. *)
Definition output_dir : Path := default_output_root // "office0".

(** A fresh world with the binary installed, and one without it. *)
Definition world : World := mkWorld installed [].
Definition bare : World := mkWorld empty [].

(** A later world: a directory exists and a line has been printed. *)
Definition later : World :=
  mkWorld (mkdir output_dir installed) [EvPrint "earlier run"].

(** The pair a finished call returned. *)
Definition paths (r : Outcome (Path * Path) * World) : Path * Path :=
  match fst r with
  | Returned p => p
  | Raised _ => (office0, office0)
  end.

End Stub.

(** Installations on which a collaborator fails, one on which the
    collaborators leave the file system alone, and hosts on which [is_file]
    or [print] raises. *)
Module Faults.

(** The output root cannot be written: creating the directory raises. *)
Definition read_only : Collaborators :=
  {| dataset_name_of := Pathlib.name;
     default_fuse_replica_binary_path := Stub.binary;
     output_dir_helper := fun _ _ files =>
       (Raised (OSError "Permission denied"), files);
     run_process := run_process (Stub.env 0) |}.

(** The binary is a regular file that cannot be executed: the launch
    raises. *)
Definition not_executable : Collaborators :=
  with_process (Stub.env 0)
    (fun _ files => (Raised (OSError "Permission denied"), files)).

(** The output directory is there already and the binary writes nothing. *)
Definition quiet : Collaborators :=
  {| dataset_name_of := Pathlib.name;
     default_fuse_replica_binary_path := Stub.binary;
     output_dir_helper := fun n r files =>
       (Returned (match r with
                  | Some p => p
                  | None => Stub.default_output_root
                  end // n), files);
     run_process := fun argv files => (Returned (mkCompleted argv 0), files) |}.

(** Names longer than 255 characters: [stat] fails on them with
    [ENAMETOOLONG], which [is_file] re-raises. *)
Definition long_name : string :=
  String.concat "" (repeat "a" 256).

Definition long_binary : Path := Pathlib.of_string ("/opt/" ++ long_name).

Definition name_limit (env : Collaborators) : Host :=
  mkHost env
    (fun _ p =>
       if existsb (fun c => 255 <? String.length c)%nat (Pathlib.parts p)
       then Some (OSError "File name too long")
       else None)
    (fun _ => None).

(** Standard output that encodes ASCII only: a line with any other
    character makes [print] raise. *)
Definition ascii_line (s : string) : bool :=
  forallb (fun c => nat_of_ascii c <? 128)%nat (list_ascii_of_string s).

Definition ascii_stdout (env : Collaborators) : Host :=
  mkHost env (fun _ _ => None)
    (fun line =>
       if ascii_line line then None
       else Some (UnicodeEncodeError "'ascii' codec can't encode character")).

(** A dataset whose name has a character outside ASCII. *)
Definition cafe : Path :=
  Pathlib.of_string ("/data/replica/caf" ++ String (ascii_of_nat 233) "").

End Faults.

(** The paths whose existence was checked among a list of events. *)
Fixpoint checked (t : list Event) : list Path :=
  match t with
  | [] => []
  | EvIsFile p :: t' => p :: checked t'
  | _ :: t' => checked t'
  end.

(** The dataset roots whose name was asked among a list of events. *)
Fixpoint dataset_name_requests (t : list Event) : list Path :=
  match t with
  | [] => []
  | EvDatasetName d :: t' => d :: dataset_name_requests t'
  | _ :: t' => dataset_name_requests t'
  end.

(** The items that give no binary path. *)
Definition no_binary_flag (items : list CmdItem) : bool :=
  forallb (fun it => match it with Binary _ => false | _ => true end) items.

(** While parsing, the positional is either still pending or filled. *)
Definition has_dataset (st : Argparse.State) : Prop :=
  Argparse.pending st = [dataset_argument]
  \/ (Argparse.pending st = []
      /\ exists p, Argparse.getattr (Argparse.ns st) "dataset_path" = Some p).

(* ===================================================================== *)
(** ** Facts about strings and paths *)
(* ===================================================================== *)

Lemma ends_with_app (suf p : string) : Str.ends_with suf (p ++ suf) = true.
Proof.
  induction p as [|c p IH]; simpl.
  - destruct suf; simpl; [reflexivity|].
    now rewrite Ascii.eqb_refl, String.eqb_refl.
  - destruct (String.eqb suf (String c (p ++ suf))); [reflexivity|exact IH].
Qed.

Lemma prefix_app (p s : string) : String.prefix p (p ++ s) = true.
Proof.
  induction p as [|c p IH]; simpl.
  - now destruct s.
  - destruct (ascii_dec c c) as [_|N]; [exact IH | now elim N].
Qed.

Lemma string_app_assoc (a b c : string) : (a ++ b) ++ c = a ++ (b ++ c).
Proof. induction a as [|x a IH]; simpl; [reflexivity | now rewrite IH]. Qed.

Lemma concat_snoc (sep : string) (ps : list string) (x : string) :
  exists pre, String.concat sep (ps ++ [x]) = pre ++ x.
Proof.
  induction ps as [|a ps IH].
  - exists "". reflexivity.
  - destruct IH as [pre IH]. exists (a ++ sep ++ pre).
    change ((a :: ps) ++ [x])%list with (a :: (ps ++ [x]))%list.
    destruct (ps ++ [x])%list as [|y l] eqn:E.
    + destruct ps; discriminate E.
    + change (String.concat sep (a :: y :: l))
        with (a ++ sep ++ String.concat sep (y :: l)).
      rewrite IH. now rewrite !string_app_assoc.
Qed.

Section PathFacts.

Variable out : Path.
Variable file : string.
Hypothesis file_plain : Pathlib.of_string file = mkPath "" [file].

Lemma truediv_file :
  out // file = mkPath (Pathlib.root out) (Pathlib.parts out ++ [file]).
Proof. unfold Pathlib.truediv. rewrite file_plain. reflexivity. Qed.

Lemma truediv_name : Pathlib.name (out // file) = file.
Proof. rewrite truediv_file. apply last_last. Qed.

Lemma truediv_parent : Pathlib.parent (out // file) = out.
Proof.
  rewrite truediv_file. unfold Pathlib.parent. simpl.
  rewrite removelast_last. now destruct out.
Qed.

Lemma truediv_to_string :
  Str.ends_with file (Pathlib.to_string (out // file)) = true.
Proof.
  rewrite truediv_file. unfold Pathlib.to_string. simpl.
  destruct (concat_snoc "/" (Pathlib.parts out) file) as [pre E].
  destruct (Pathlib.parts out ++ [file])%list as [|y l] eqn:P.
  - destruct (Pathlib.parts out); discriminate P.
  - rewrite E, <- string_app_assoc. apply ends_with_app.
Qed.

End PathFacts.

Lemma mesh_plain :
  Pathlib.of_string "reconstructed_mesh.ply" = mkPath "" ["reconstructed_mesh.ply"].
Proof. reflexivity. Qed.

Lemma esdf_plain :
  Pathlib.of_string "reconstructed_esdf.ply" = mkPath "" ["reconstructed_esdf.ply"].
Proof. reflexivity. Qed.

Lemma mesh_esdf_differ (out : Path) :
  out // "reconstructed_mesh.ply" <> out // "reconstructed_esdf.ply".
Proof.
  intros E.
  apply (f_equal Pathlib.name) in E.
  rewrite (truediv_name _ _ mesh_plain), (truediv_name _ _ esdf_plain) in E.
  discriminate E.
Qed.

(* ===================================================================== *)
(** ** Facts about traces *)
(* ===================================================================== *)

Lemma launched_app (s t : list Event) :
  launched (s ++ t) = (launched s ++ launched t)%list.
Proof.
  induction s as [|e s IH]; [reflexivity|].
  destruct e; simpl; now rewrite IH.
Qed.

Lemma output_dir_requests_app (s t : list Event) :
  output_dir_requests (s ++ t)
  = (output_dir_requests s ++ output_dir_requests t)%list.
Proof.
  induction s as [|e s IH]; [reflexivity|].
  destruct e; simpl; now rewrite IH.
Qed.

Lemma launched_preamble env d b : launched (preamble env d b) = [].
Proof. now destruct b. Qed.

Lemma output_dir_requests_preamble env d b :
  output_dir_requests (preamble env d b) = [].
Proof. now destruct b. Qed.

(* ===================================================================== *)
(** ** More facts about traces, strings and paths *)
(* ===================================================================== *)

Lemma default_lookups_app (s t : list Event) :
  default_lookups (s ++ t) = default_lookups s + default_lookups t.
Proof.
  induction s as [|e s IH]; [reflexivity|].
  destruct e; simpl; now rewrite IH.
Qed.

Lemma printed_app (s t : list Event) :
  printed (s ++ t) = (printed s ++ printed t)%list.
Proof.
  induction s as [|e s IH]; [reflexivity|].
  destruct e; simpl; now rewrite IH.
Qed.

Lemma checked_app (s t : list Event) :
  checked (s ++ t) = (checked s ++ checked t)%list.
Proof.
  induction s as [|e s IH]; [reflexivity|].
  destruct e; simpl; now rewrite IH.
Qed.

Lemma printed_preamble env d b : printed (preamble env d b) = [].
Proof. now destruct b. Qed.

Lemma checked_preamble env d b :
  checked (preamble env d b) = [resolved_binary env b].
Proof. now destruct b. Qed.

Lemma concat_snoc_nonempty (sep : string) (ps : list string) (x : string) :
  ps <> [] ->
  String.concat sep (ps ++ [x]) = String.concat sep ps ++ sep ++ x.
Proof.
  induction ps as [|a ps IH]; intros N; [now elim N|].
  destruct ps as [|c ps]; [reflexivity|].
  change (String.concat sep ((a :: c :: ps) ++ [x]))
    with (a ++ sep ++ String.concat sep ((c :: ps) ++ [x])).
  rewrite IH by discriminate.
  change (String.concat sep (a :: c :: ps))
    with (a ++ sep ++ String.concat sep (c :: ps)).
  now rewrite !string_app_assoc.
Qed.

(** The string of a file placed in a directory with at least one
    component: the directory's string, a slash, the file name. *)
Lemma to_string_truediv (out : Path) (file : string) :
  Pathlib.of_string file = mkPath "" [file] ->
  Pathlib.parts out <> [] ->
  Pathlib.to_string (out // file) = Pathlib.to_string out ++ "/" ++ file.
Proof.
  intros F N. rewrite (truediv_file _ _ F). unfold Pathlib.to_string.
  cbn [Pathlib.parts Pathlib.root].
  destruct (Pathlib.parts out ++ [file])%list as [|y l] eqn:E.
  - destruct (Pathlib.parts out); discriminate E.
  - rewrite <- E, (concat_snoc_nonempty _ _ _ N).
    destruct (Pathlib.parts out) as [|a ps]; [now elim N|].
    now rewrite string_app_assoc.
Qed.

Lemma dataset_name_requests_app (s t : list Event) :
  dataset_name_requests (s ++ t)
  = (dataset_name_requests s ++ dataset_name_requests t)%list.
Proof.
  induction s as [|e s IH]; [reflexivity|].
  destruct e; simpl; now rewrite IH.
Qed.

(** A list of print events holds nothing but printed lines. *)
Lemma only_prints (lines : list string) :
  printed (map EvPrint lines) = lines
  /\ launched (map EvPrint lines) = []
  /\ output_dir_requests (map EvPrint lines) = []
  /\ checked (map EvPrint lines) = []
  /\ dataset_name_requests (map EvPrint lines) = []
  /\ default_lookups (map EvPrint lines) = 0.
Proof.
  induction lines as [|l lines [A [B [C [D [E F]]]]]]; [now repeat split|].
  cbn. rewrite A. now repeat split.
Qed.

(* ===================================================================== *)
(** ** Printing, and the ways a call can go on any host *)
(* ===================================================================== *)

Lemma progress_is_lines (bin d out : Path) :
  progress bin d out = map EvPrint (progress_lines bin d out).
Proof. reflexivity. Qed.

Lemma printing_all (pr : string -> option PyExc) (lines : list string) :
  (forall l, In l lines -> pr l = None) ->
  printing pr lines = (map EvPrint lines, None).
Proof.
  induction lines as [|l lines IH]; intros H; [reflexivity|].
  cbn [printing map]. rewrite (H l (or_introl eq_refl)).
  rewrite IH; [reflexivity|]. intros l' I. apply H. now right.
Qed.

Lemma printing_none (pr : string -> option PyExc) (lines : list string) :
  forall evs,
    printing pr lines = (evs, None) ->
    evs = map EvPrint lines /\ forall l, In l lines -> pr l = None.
Proof.
  induction lines as [|l lines IH]; intros evs P.
  - injection P as <-. split; [reflexivity|]. intros l [].
  - cbn [printing] in P. destruct (pr l) eqn:E; [discriminate P|].
    destruct (printing pr lines) as [evs' r]. injection P as <- ->.
    destruct (IH evs' eq_refl) as [-> A]. split; [reflexivity|].
    intros l' [<-|I]; [exact E | exact (A l' I)].
Qed.

(** When a line is rejected, its exception is the one reported, and what
    went out before it is some of the lines and no launch. *)
Lemma printing_some (pr : string -> option PyExc) (lines : list string) :
  forall evs e,
    printing pr lines = (evs, Some e) ->
    (exists l, In l lines /\ pr l = Some e)
    /\ launched evs = []
    /\ output_dir_requests evs = [].
Proof.
  induction lines as [|l lines IH]; intros evs e P; [discriminate P|].
  cbn [printing] in P. destruct (pr l) as [e'|] eqn:E.
  - injection P as <- <-. split; [|now split]. exists l. split; [now left|].
    exact E.
  - destruct (printing pr lines) as [evs' r]. injection P as <- ->.
    destruct (IH evs' e eq_refl) as [[l' [I Q]] [L R]].
    split; [|now split]. exists l'. split; [now right | exact Q].
Qed.

Lemma printing_rejects (pr : string -> option PyExc) (lines : list string)
  (l : string) (e : PyExc) :
  In l lines -> pr l = Some e ->
  exists evs e', printing pr lines = (evs, Some e').
Proof.
  induction lines as [|l0 lines IH]; intros I E; [destruct I|].
  cbn [printing]. destruct (pr l0) as [e0|] eqn:E0; [now eexists; eexists|].
  destruct I as [->|I]; [congruence|].
  destruct (IH I E) as [evs [e' P]]. rewrite P. now eexists; eexists.
Qed.

Section HostRuns.

Variable env : Collaborators.
Variable st : FS -> Path -> option PyExc.
Variable pr : string -> option PyExc.
Variables (d : Path) (o b : option Path) (w : World).

Let bin := resolved_binary env b.
Let name := dataset_name_of env d.

Ltac unfold_host_driver :=
  cbv beta iota zeta delta
    [replica_reconstruction get_dataset_name_from_dataset_root_path
     get_default_fuse_replica_binary_path get_output_dir is_file print
     subprocess_run log on_fs raise bind ret Monad_M negb fs trace
     resolved_binary preamble fuse_replica_command progress_lines printing
     collaborators stat_failure print_failure].

(** [is_file] raises: the call raises the same exception at the check. *)
Lemma host_run_stat_fails e :
  st (fs w) bin = Some e ->
  replica_reconstruction (mkHost env st pr) d o b w
  = (Raised e, mkWorld (fs w) (trace w ++ preamble env d b)).
Proof.
  subst bin. destruct w as [files t], b as [p|]; unfold_host_driver;
    intros ->; rewrite <- !app_assoc; reflexivity.
Qed.

(** [is_file] answers [False]: the call raises its own exception. *)
Lemma host_run_missing :
  st (fs w) bin = None ->
  regular_file (fs w) bin = false ->
  replica_reconstruction (mkHost env st pr) d o b w
  = (Raised (Exception ("Cant find binary at:" ++ Pathlib.to_string bin)),
     mkWorld (fs w) (trace w ++ preamble env d b)).
Proof.
  subst bin. destruct w as [files t], b as [p|]; unfold_host_driver;
    intros -> ->; rewrite <- !app_assoc; reflexivity.
Qed.

Lemma host_run_output_dir_raises e files1 :
  st (fs w) bin = None ->
  regular_file (fs w) bin = true ->
  output_dir_helper env name o (fs w) = (Raised e, files1) ->
  replica_reconstruction (mkHost env st pr) d o b w
  = (Raised e,
     mkWorld files1 (trace w ++ preamble env d b ++ [EvGetOutputDir name o])).
Proof.
  subst bin name. destruct w as [files t], b as [p|]; unfold_host_driver;
    intros -> -> ->; rewrite <- !app_assoc; reflexivity.
Qed.

(** The output directory is resolved: the lines are printed in turn; the
    first one that is rejected ends the call, and when none is the process
    is launched. *)
Lemma host_run_resolved out files1 :
  st (fs w) bin = None ->
  regular_file (fs w) bin = true ->
  output_dir_helper env name o (fs w) = (Returned out, files1) ->
  replica_reconstruction (mkHost env st pr) d o b w
  = match printing pr (progress_lines bin d out) with
    | (evs, Some e) =>
        (Raised e,
         mkWorld files1
           (trace w ++ preamble env d b ++ EvGetOutputDir name o :: evs))
    | (evs, None) =>
        let (r, files2) :=
          run_process env (fuse_replica_command bin d out) files1 in
        (match r with
         | Returned _ => Returned (out // "reconstructed_mesh.ply",
                                   out // "reconstructed_esdf.ply")
         | Raised e => Raised e
         end,
         mkWorld files2
           (trace w ++ preamble env d b ++ EvGetOutputDir name o
              :: evs ++ [EvRun (fuse_replica_command bin d out)]))
    end.
Proof.
  subst bin name. destruct w as [files t], b as [p|]; unfold_host_driver;
    intros -> -> ->;
    repeat match goal with
           | |- context [match pr ?l with _ => _ end] => destruct (pr l)
           end;
    try match goal with
        | |- context [run_process env ?a ?f] =>
            destruct (run_process env a f) as [[cp|e'] files2]
        end;
    rewrite <- ?app_assoc; reflexivity.
Qed.

End HostRuns.

(** What went out is a beginning of the lines. *)
Lemma printing_events (pr : string -> option PyExc) (lines : list string) :
  forall evs r,
    printing pr lines = (evs, r) ->
    exists k, evs = map EvPrint (firstn k lines).
Proof.
  induction lines as [|l lines IH]; intros evs r P.
  - injection P as <- _. now exists 0.
  - cbn [printing] in P. destruct (pr l) as [e|].
    + injection P as <- _. now exists 0.
    + destruct (printing pr lines) as [evs' r']. injection P as <- _.
      destruct (IH evs' r' eq_refl) as [k ->]. now exists (S k).
Qed.

(** Every call goes one of five ways. *)
Lemma host_run_cases
  (env : Collaborators) (st : FS -> Path -> option PyExc)
  (pr : string -> option PyExc)
  (d : Path) (o b : option Path) (w : World) :
  let bin := resolved_binary env b in
  let name := dataset_name_of env d in
  let run := replica_reconstruction (mkHost env st pr) d o b w in
  (exists e,
     st (fs w) bin = Some e
     /\ run = (Raised e, mkWorld (fs w) (trace w ++ preamble env d b)))
  \/ (st (fs w) bin = None /\ regular_file (fs w) bin = false
      /\ run = (Raised (Exception ("Cant find binary at:"
                                   ++ Pathlib.to_string bin)),
                mkWorld (fs w) (trace w ++ preamble env d b)))
  \/ (st (fs w) bin = None /\ regular_file (fs w) bin = true
      /\ exists e files1,
           output_dir_helper env name o (fs w) = (Raised e, files1)
           /\ run = (Raised e,
                     mkWorld files1
                       (trace w ++ preamble env d b
                        ++ [EvGetOutputDir name o])))
  \/ (st (fs w) bin = None /\ regular_file (fs w) bin = true
      /\ exists out files1 k e,
           output_dir_helper env name o (fs w) = (Returned out, files1)
           /\ (exists line,
                 In line (progress_lines bin d out) /\ pr line = Some e)
           /\ run = (Raised e,
                     mkWorld files1
                       (trace w ++ preamble env d b
                        ++ EvGetOutputDir name o
                           :: map EvPrint
                                (firstn k (progress_lines bin d out)))))
  \/ (st (fs w) bin = None /\ regular_file (fs w) bin = true
      /\ exists out files1 r files2,
           output_dir_helper env name o (fs w) = (Returned out, files1)
           /\ (forall line,
                 In line (progress_lines bin d out) -> pr line = None)
           /\ run_process env (fuse_replica_command bin d out) files1
              = (r, files2)
           /\ run = (match r with
                     | Returned _ =>
                         Returned (out // "reconstructed_mesh.ply",
                                   out // "reconstructed_esdf.ply")
                     | Raised e => Raised e
                     end,
                     mkWorld files2
                       (trace w ++ preamble env d b
                        ++ EvGetOutputDir name o
                           :: map EvPrint (progress_lines bin d out)
                           ++ [EvRun (fuse_replica_command bin d out)]))).
Proof.
  intros bin name run. subst run. set (bin' := bin). subst bin name.
  cbv zeta. subst bin'.
  destruct (st (fs w) (resolved_binary env b)) as [e|] eqn:S.
  { left. exists e. split; [reflexivity|].
    exact (host_run_stat_fails _ _ _ _ _ _ _ _ S). }
  right.
  destruct (regular_file (fs w) (resolved_binary env b)) eqn:H.
  2:{ left. repeat split. exact (host_run_missing _ _ _ _ _ _ _ S H). }
  right.
  destruct (output_dir_helper env (dataset_name_of env d) o (fs w))
    as [[out|e] f1] eqn:G.
  2:{ left. repeat split. exists e, f1. split; [reflexivity|].
      exact (host_run_output_dir_raises _ _ _ _ _ _ _ _ _ S H G). }
  right.
  rewrite (host_run_resolved _ _ _ _ _ _ _ _ _ S H G).
  destruct (printing pr (progress_lines (resolved_binary env b) d out))
    as [evs [e|]] eqn:P.
  - left. repeat split.
    destruct (printing_events _ _ _ _ P) as [k ->].
    exists out, f1, k, e. split; [reflexivity|].
    split; [exact (proj1 (printing_some _ _ _ _ P)) | reflexivity].
  - right. repeat split. destruct (printing_none _ _ _ P) as [-> A].
    destruct (run_process env
                (fuse_replica_command (resolved_binary env b) d out) f1)
      as [r f2] eqn:Q.
    exists out, f1, r, f2. now repeat split.
Qed.

(** The five ways, with names for what each one brings. *)
Ltac five_ways env st pr d o b w :=
  destruct (host_run_cases env st pr d o b w)
    as [[exc [Hstat Hrun]]
       |[[Hstat [Hreg Hrun]]
        |[[Hstat [Hreg [exc [fs1 [Hdir Hrun]]]]]
         |[[Hstat [Hreg [dir [fs1 [cnt [exc [Hdir [Hline Hrun]]]]]]]]
          |[Hstat [Hreg [dir [fs1 [res [fs2 [Hdir [Hlines [Hproc Hrun]]]]]]]]]
          ]]]].

(** The call that gets as far as the launch. *)
Lemma host_run_launch
  (env : Collaborators) (st : FS -> Path -> option PyExc)
  (pr : string -> option PyExc)
  (d : Path) (o b : option Path) (w : World) (out : Path) (files1 : FS) :
  st (fs w) (resolved_binary env b) = None ->
  regular_file (fs w) (resolved_binary env b) = true ->
  output_dir_helper env (dataset_name_of env d) o (fs w)
  = (Returned out, files1) ->
  (forall line,
     In line (progress_lines (resolved_binary env b) d out) ->
     pr line = None) ->
  replica_reconstruction (mkHost env st pr) d o b w
  = let (r, files2) :=
      run_process env (fuse_replica_command (resolved_binary env b) d out)
        files1 in
    (match r with
     | Returned _ => Returned (out // "reconstructed_mesh.ply",
                               out // "reconstructed_esdf.ply")
     | Raised e => Raised e
     end,
     mkWorld files2
       (trace w ++ preamble env d b
        ++ EvGetOutputDir (dataset_name_of env d) o
           :: progress (resolved_binary env b) d out
           ++ [EvRun (fuse_replica_command (resolved_binary env b) d out)])).
Proof.
  intros S H G A.
  rewrite (host_run_resolved _ _ _ _ _ _ _ _ _ S H G), (printing_all _ _ A).
  reflexivity.
Qed.

(** A call that returns has resolved its output directory, and returns the
    two files in it. *)
Lemma returns_inv
  (env : Collaborators) (st : FS -> Path -> option PyExc)
  (pr : string -> option PyExc)
  (d : Path) (o b : option Path) (w w' : World) (r : Path * Path) :
  replica_reconstruction (mkHost env st pr) d o b w = (Returned r, w') ->
  exists out files1,
    output_dir_helper env (dataset_name_of env d) o (fs w)
    = (Returned out, files1)
    /\ r = (out // "reconstructed_mesh.ply", out // "reconstructed_esdf.ply").
Proof.
  intros R. five_ways env st pr d o b w; rewrite Hrun in R;
    try discriminate R.
  destruct res as [cp|e]; [|discriminate R]. injection R as <- _.
  now exists dir, fs1.
Qed.

(** What a call adds to the trace: the events up to the check, then events
    among which there is no default lookup, no dataset-name request, no
    existence check and at most one launch. *)
Lemma host_run_trace
  (env : Collaborators) (st : FS -> Path -> option PyExc)
  (pr : string -> option PyExc)
  (d : Path) (o b : option Path) (w : World) :
  exists rest,
    trace (snd (replica_reconstruction (mkHost env st pr) d o b w))
    = (trace w ++ preamble env d b ++ rest)%list
    /\ default_lookups rest = 0
    /\ dataset_name_requests rest = []
    /\ checked rest = []
    /\ length (launched rest) <= 1.
Proof.
  five_ways env st pr d o b w; rewrite Hrun; cbn [snd trace].
  - exists []. rewrite app_nil_r. cbn. repeat split; lia.
  - exists []. rewrite app_nil_r. cbn. repeat split; lia.
  - eexists. split; [reflexivity|]. cbn. repeat split; lia.
  - eexists. split; [reflexivity|].
    destruct (only_prints (firstn cnt (progress_lines (resolved_binary env b)
                                         d dir)))
      as [_ [B [_ [D [F Z]]]]].
    cbn. rewrite B, D, F, Z. cbn. repeat split; lia.
  - eexists. split; [reflexivity|].
    cbn [default_lookups dataset_name_requests checked launched].
    rewrite default_lookups_app, dataset_name_requests_app, checked_app,
      launched_app.
    destruct (only_prints (progress_lines (resolved_binary env b) d dir))
      as [_ [B [_ [D [F Z]]]]].
    rewrite B, D, F, Z. cbn. repeat split; lia.
Qed.

(* ===================================================================== *)
(** ** The driver *)
(* ===================================================================== *)

(** A host is given by its three parts: the collaborators [env], what makes
    [is_file] raise, [st], and what makes [print] raise, [pr]. *)

(** C1: when [is_file] answers [True] for the resolved binary,
    the output-directory helper returns, the four lines are printed
    and the launched process runs to its end, the call returns the mesh
    path and the esdf path computed from the output directory, whatever
    exit status the process reports: the status is never looked at, so a
    non-zero one raises nothing. *)
Theorem exit_status_is_not_inspected
  (env : Collaborators) (st : FS -> Path -> option PyExc)
  (pr : string -> option PyExc)
  (d : Path) (o b : option Path) (w : World)
  (out : Path) (files1 files2 : FS) (ran : list string) (status : Z) :
  st (fs w) (resolved_binary env b) = None ->
  regular_file (fs w) (resolved_binary env b) = true ->
  output_dir_helper env (dataset_name_of env d) o (fs w)
  = (Returned out, files1) ->
  (forall line,
     In line (progress_lines (resolved_binary env b) d out) ->
     pr line = None) ->
  run_process env
    [Pathlib.to_string (resolved_binary env b); Pathlib.to_string d;
     "--mesh_output_path";
     Pathlib.to_string (out // "reconstructed_mesh.ply");
     "--esdf_output_path";
     Pathlib.to_string (out // "reconstructed_esdf.ply")] files1
  = (Returned (mkCompleted ran status), files2) ->
  fst (replica_reconstruction (mkHost env st pr) d o b w)
  = Returned (out // "reconstructed_mesh.ply", out // "reconstructed_esdf.ply").
Proof.
  intros S H G P R.
  rewrite (host_run_resolved _ _ _ _ _ _ _ _ _ S H G), (printing_all _ _ P).
  unfold fuse_replica_command. rewrite R. reflexivity.
Qed.

(** That the binary is a regular file is not enough for the call to
    return: here it is one and [is_file] says so, yet the call raises,
    because the launch itself fails. *)
Lemma regular_binary_yet_call_raises :
  regular_file (fs Stub.world) (resolved_binary Faults.not_executable None)
  = true
  /\ fst (replica_reconstruction (reliable Faults.not_executable)
            Stub.office0 None None Stub.world)
     = Raised (OSError "Permission denied").
Proof. split; reflexivity. Qed.

(** C2: when the resolved executable path, the caller's or the
    default one, is not an existing regular file, the call raises and
    launches no subprocess; what it raises is the missing-executable error
    when [is_file] answers [False], and the exception of [is_file] when
    that call raises. *)
Theorem missing_binary_raises_before_launch
  (env : Collaborators) (st : FS -> Path -> option PyExc)
  (pr : string -> option PyExc)
  (d : Path) (o b : option Path) (w : World) :
  regular_file (fs w) (resolved_binary env b) = false ->
  fst (replica_reconstruction (mkHost env st pr) d o b w)
  = match st (fs w) (resolved_binary env b) with
    | None =>
        Raised (Exception ("Cant find binary at:"
                           ++ Pathlib.to_string (resolved_binary env b)))
    | Some e => Raised e
    end
  /\ launched (trace (snd (replica_reconstruction (mkHost env st pr)
                             d o b w)))
     = launched (trace w).
Proof.
  intros H. destruct (st (fs w) (resolved_binary env b)) as [e|] eqn:S.
  - rewrite (host_run_stat_fails _ _ _ _ _ _ _ _ S). split; [reflexivity|].
    cbn [snd trace]. rewrite launched_app, launched_preamble.
    apply app_nil_r.
  - rewrite (host_run_missing _ _ _ _ _ _ _ S H). split; [reflexivity|].
    cbn [snd trace]. rewrite launched_app, launched_preamble.
    apply app_nil_r.
Qed.

(** A path that names no regular file does not always give the
    missing-executable error: a name of 256 characters names none, and the
    call raises the [OSError] of [is_file]. *)
Lemma overlong_binary_raises_oserror :
  regular_file (fs Stub.bare) Faults.long_binary = false
  /\ fst (replica_reconstruction (Faults.name_limit (Stub.env 0))
            Stub.office0 None (Some Faults.long_binary) Stub.bare)
     = Raised (OSError "File name too long").
Proof. split; vm_compute; reflexivity. Qed.

(** C3: the pair a call returns is made of two different paths, the first
    named [reconstructed_mesh.ply] and the second [reconstructed_esdf.ply],
    both directly inside the output directory that the helper resolved. *)
Theorem returned_paths_shape
  (env : Collaborators) (st : FS -> Path -> option PyExc)
  (pr : string -> option PyExc)
  (d : Path) (o b : option Path) (w w' : World) (mesh esdf : Path) :
  replica_reconstruction (mkHost env st pr) d o b w
  = (Returned (mesh, esdf), w') ->
  mesh <> esdf
  /\ Pathlib.name mesh = "reconstructed_mesh.ply"
  /\ Pathlib.name esdf = "reconstructed_esdf.ply"
  /\ Str.ends_with "reconstructed_mesh.ply" (Pathlib.to_string mesh) = true
  /\ Str.ends_with "reconstructed_esdf.ply" (Pathlib.to_string esdf) = true
  /\ exists out files1,
       output_dir_helper env (dataset_name_of env d) o (fs w)
       = (Returned out, files1)
       /\ Pathlib.parent mesh = out /\ Pathlib.parent esdf = out.
Proof.
  intros R. destruct (returns_inv _ _ _ _ _ _ _ _ _ R) as [out [f1 [G P]]].
  injection P as -> ->. repeat split.
  - apply mesh_esdf_differ.
  - apply (truediv_name _ _ mesh_plain).
  - apply (truediv_name _ _ esdf_plain).
  - apply (truediv_to_string _ _ mesh_plain).
  - apply (truediv_to_string _ _ esdf_plain).
  - exists out, f1. repeat split.
    + exact G.
    + apply (truediv_parent _ _ mesh_plain).
    + apply (truediv_parent _ _ esdf_plain).
Qed.

(** C4: two calls with the same dataset path, output root and binary path
    return the same pair of paths, in whatever worlds and on whatever hosts
    they run and whatever the launched process does in each, for an
    output-directory helper whose answer is determined by its arguments. *)
Theorem returned_paths_deterministic
  (env : Collaborators)
  (rp1 rp2 : list string -> FS -> Outcome CompletedProcess * FS)
  (st1 st2 : FS -> Path -> option PyExc) (pr1 pr2 : string -> option PyExc)
  (d : Path) (o b : option Path) (w1 w2 w1' w2' : World)
  (r1 r2 : Path * Path) :
  output_dir_determined env ->
  replica_reconstruction (mkHost (with_process env rp1) st1 pr1) d o b w1
  = (Returned r1, w1') ->
  replica_reconstruction (mkHost (with_process env rp2) st2 pr2) d o b w2
  = (Returned r2, w2') ->
  r1 = r2.
Proof.
  intros D R1 R2.
  destruct (returns_inv _ _ _ _ _ _ _ _ _ R1) as [out1 [f1 [G1 ->]]].
  destruct (returns_inv _ _ _ _ _ _ _ _ _ R2) as [out2 [f2 [G2 ->]]].
  cbn in G1, G2. now rewrite (D _ _ _ _ _ _ _ _ G1 G2).
Qed.

(** C5: a call that reaches the process invocation launches one process:
    the executable path followed by exactly five arguments, which are the
    dataset path, [--mesh_output_path], the mesh path, [--esdf_output_path]
    and the esdf path, in this order. *)
Theorem subprocess_command_line
  (env : Collaborators) (st : FS -> Path -> option PyExc)
  (pr : string -> option PyExc)
  (d : Path) (o b : option Path) (w : World) (out : Path) (files1 : FS) :
  st (fs w) (resolved_binary env b) = None ->
  regular_file (fs w) (resolved_binary env b) = true ->
  output_dir_helper env (dataset_name_of env d) o (fs w)
  = (Returned out, files1) ->
  (forall line,
     In line (progress_lines (resolved_binary env b) d out) ->
     pr line = None) ->
  launched (trace (snd (replica_reconstruction (mkHost env st pr) d o b w)))
  = (launched (trace w)
     ++ [Pathlib.to_string (resolved_binary env b)
         :: [Pathlib.to_string d;
             "--mesh_output_path";
             Pathlib.to_string (out // "reconstructed_mesh.ply");
             "--esdf_output_path";
             Pathlib.to_string (out // "reconstructed_esdf.ply")]])%list.
Proof.
  intros S H G A. rewrite (host_run_launch _ _ _ _ _ _ _ _ _ S H G A).
  destruct (run_process env _ files1) as [r files2]. cbn [snd trace].
  rewrite !launched_app, launched_preamble. reflexivity.
Qed.

(** C6: when no binary path is given, the call looks up the default
    location and checks that path; when one is given, the call checks the
    given path and never looks up the default location. *)
Theorem binary_path_resolution
  (env : Collaborators) (st : FS -> Path -> option PyExc)
  (pr : string -> option PyExc)
  (d : Path) (o : option Path) (w : World) :
  (exists rest,
     trace (snd (replica_reconstruction (mkHost env st pr) d o None w))
     = (trace w
        ++ EvDatasetName d :: EvDefaultBinary
           :: EvIsFile (default_fuse_replica_binary_path env) :: rest)%list
     /\ default_lookups rest = 0)
  /\ forall p : Path,
       exists rest,
         trace (snd (replica_reconstruction (mkHost env st pr) d o
                       (Some p) w))
         = (trace w ++ EvDatasetName d :: EvIsFile p :: rest)%list
         /\ default_lookups rest = 0.
Proof.
  split; [|intros p].
  - destruct (host_run_trace env st pr d o None w) as [rest [E [Z _]]].
    now exists rest.
  - destruct (host_run_trace env st pr d o (Some p) w) as [rest [E [Z _]]].
    now exists rest.
Qed.

(** C7: in every execution that launches the subprocess, the
    four progress lines, about the binary, the dataset, the mesh output and
    the esdf output, are the only lines printed; they come just before the
    launch, which is the last thing the call does.  Printing bears on
    control flow in one way: a [print] that raises ends the call with its
    exception, before any launch. *)
Theorem progress_lines_precede_launch
  (env : Collaborators) (st : FS -> Path -> option PyExc)
  (pr : string -> option PyExc)
  (d : Path) (o b : option Path) (w : World) :
  (forall argv,
     launched (trace (snd (replica_reconstruction (mkHost env st pr)
                             d o b w)))
     = (launched (trace w) ++ [argv])%list ->
     exists before out files1,
       output_dir_helper env (dataset_name_of env d) o (fs w)
       = (Returned out, files1)
       /\ trace (snd (replica_reconstruction (mkHost env st pr) d o b w))
          = (trace w ++ before
             ++ [EvPrint ("Running executable at:" ++ Str.tab
                          ++ Pathlib.to_string (resolved_binary env b));
                 EvPrint ("On the dataset at:" ++ Str.tab
                          ++ Pathlib.to_string d);
                 EvPrint ("Outputting mesh at:" ++ Str.tab
                          ++ Pathlib.to_string
                               (out // "reconstructed_mesh.ply"));
                 EvPrint ("Outputting esdf at:" ++ Str.tab
                          ++ Pathlib.to_string
                               (out // "reconstructed_esdf.ply"));
                 EvRun argv])%list
       /\ printed before = [] /\ launched before = [])
  /\ (forall out files1 line e,
        st (fs w) (resolved_binary env b) = None ->
        regular_file (fs w) (resolved_binary env b) = true ->
        output_dir_helper env (dataset_name_of env d) o (fs w)
        = (Returned out, files1) ->
        In line (progress_lines (resolved_binary env b) d out) ->
        pr line = Some e ->
        (exists line' e',
           In line' (progress_lines (resolved_binary env b) d out)
           /\ pr line' = Some e'
           /\ fst (replica_reconstruction (mkHost env st pr) d o b w)
              = Raised e')
        /\ launched (trace (snd (replica_reconstruction (mkHost env st pr)
                                   d o b w)))
           = launched (trace w)).
Proof.
  split.
  - intros argv L.
    assert (N : forall t : list Event,
               launched (trace w ++ t) = (launched (trace w) ++ [argv])%list ->
               launched t = [argv]).
    { intros t E. rewrite launched_app in E. exact (app_inv_head _ _ _ E). }
    destruct (st (fs w) (resolved_binary env b)) as [e|] eqn:S.
    { rewrite (host_run_stat_fails _ _ _ _ _ _ _ _ S) in L.
      apply N in L. rewrite launched_preamble in L. discriminate L. }
    destruct (regular_file (fs w) (resolved_binary env b)) eqn:H.
    2:{ rewrite (host_run_missing _ _ _ _ _ _ _ S H) in L.
        apply N in L. rewrite launched_preamble in L. discriminate L. }
    destruct (output_dir_helper env (dataset_name_of env d) o (fs w))
      as [[out|e] f1] eqn:G.
    2:{ rewrite (host_run_output_dir_raises _ _ _ _ _ _ _ _ _ S H G) in L.
        apply N in L. rewrite launched_app, launched_preamble in L.
        discriminate L. }
    rewrite (host_run_resolved _ _ _ _ _ _ _ _ _ S H G) in L |- *.
    destruct (printing pr _) as [evs [e|]] eqn:P.
    { destruct (printing_some _ _ _ _ P) as [_ [Z _]]. apply N in L.
      rewrite launched_app, launched_preamble in L. cbn in L.
      rewrite Z in L. discriminate L. }
    destruct (printing_none _ _ _ P) as [-> _].
    destruct (run_process env _ f1) as [r f2]. cbn [snd trace] in L |- *.
    apply N in L. rewrite launched_app, launched_preamble in L.
    injection L as <-.
    exists (preamble env d b ++ [EvGetOutputDir (dataset_name_of env d) o])%list,
      out, f1.
    split; [reflexivity|]. split; [|split].
    + rewrite <- !app_assoc. reflexivity.
    + now destruct b.
    + now destruct b.
  - intros out files1 line e S H G I E.
    rewrite (host_run_resolved _ _ _ _ _ _ _ _ _ S H G).
    destruct (printing_rejects _ _ _ _ I E) as [evs [e' P]]. rewrite P.
    destruct (printing_some _ _ _ _ P) as [[l' [I' E']] [Z _]].
    split.
    + now exists l', e'.
    + cbn [snd trace]. rewrite !launched_app, launched_preamble. cbn.
      rewrite Z. apply app_nil_r.
Qed.

(** Printing does bear on control flow: the same call on the same
    installation returns when standard output takes every line, and raises
    before the launch when standard output rejects the second line. *)
Lemma print_failure_aborts_call :
  (exists r,
     fst (replica_reconstruction (reliable (Stub.env 0)) Faults.cafe None
            None Stub.world)
     = Returned r)
  /\ fst (replica_reconstruction (Faults.ascii_stdout (Stub.env 0))
            Faults.cafe None None Stub.world)
     = Raised (UnicodeEncodeError "'ascii' codec can't encode character")
  /\ printed
       (trace (snd (replica_reconstruction (Faults.ascii_stdout (Stub.env 0))
                      Faults.cafe None None Stub.world)))
     = ["Running executable at:" ++ Str.tab
        ++ "/opt/nvblox/build/executables/fuse_replica"]
  /\ launched
       (trace (snd (replica_reconstruction (Faults.ascii_stdout (Stub.env 0))
                      Faults.cafe None None Stub.world)))
     = [].
Proof.
  split; [eexists; vm_compute; reflexivity|].
  repeat split; vm_compute; reflexivity.
Qed.

(** C9: when the resolved binary is not an existing regular file, the call
    never asks for the output directory and leaves the file system as it
    found it. *)
Theorem missing_binary_leaves_output_dir_alone
  (env : Collaborators) (st : FS -> Path -> option PyExc)
  (pr : string -> option PyExc)
  (d : Path) (o b : option Path) (w : World) :
  regular_file (fs w) (resolved_binary env b) = false ->
  output_dir_requests
    (trace (snd (replica_reconstruction (mkHost env st pr) d o b w)))
  = output_dir_requests (trace w)
  /\ fs (snd (replica_reconstruction (mkHost env st pr) d o b w)) = fs w.
Proof.
  intros H.
  destruct (st (fs w) (resolved_binary env b)) as [e|] eqn:S.
  - rewrite (host_run_stat_fails _ _ _ _ _ _ _ _ S). cbn [snd trace fs].
    split; [|reflexivity].
    rewrite output_dir_requests_app, output_dir_requests_preamble.
    apply app_nil_r.
  - rewrite (host_run_missing _ _ _ _ _ _ _ S H). cbn [snd trace fs].
    split; [|reflexivity].
    rewrite output_dir_requests_app, output_dir_requests_preamble.
    apply app_nil_r.
Qed.

(** C10: the missing-executable error, which the call raises when
    [is_file] answers [False], carries a message made of
    [Cant find binary at:] followed by the resolved binary path. *)
Theorem missing_binary_message_names_path
  (env : Collaborators) (st : FS -> Path -> option PyExc)
  (pr : string -> option PyExc)
  (d : Path) (o b : option Path) (w : World) :
  st (fs w) (resolved_binary env b) = None ->
  regular_file (fs w) (resolved_binary env b) = false ->
  exists msg,
    fst (replica_reconstruction (mkHost env st pr) d o b w)
    = Raised (Exception msg)
    /\ msg = "Cant find binary at:" ++ Pathlib.to_string (resolved_binary env b)
    /\ String.prefix "Cant find binary at:" msg = true
    /\ Str.ends_with (Pathlib.to_string (resolved_binary env b)) msg = true.
Proof.
  intros S H. rewrite (host_run_missing _ _ _ _ _ _ _ S H). eexists.
  split; [reflexivity|]. split; [reflexivity|]. split.
  - apply prefix_app.
  - apply ends_with_app.
Qed.

(* ===================================================================== *)
(** ** The command-line entry point *)
(* ===================================================================== *)

Lemma parser_declares :
  parser
  = [Argparse.mkArgument ["-h"; "--help"] "help" Argparse.Help false;
     dataset_argument; output_root_argument; binary_argument].
Proof. reflexivity. Qed.

Lemma classify_plain (s : string) :
  Str.starts_with_dash s = false ->
  Argparse.classify parser s = Argparse.TArg s.
Proof. intros H. unfold Argparse.classify. now rewrite H. Qed.

Lemma tokens_render (items : list CmdItem) :
  forallb plain_item items = true ->
  map (Argparse.classify parser) (render items) = flat_map item_tokens items.
Proof.
  induction items as [|it items IH]; [reflexivity|].
  cbn [forallb]. intros H. apply andb_true_iff in H as [P Q].
  unfold render in *. cbn [flat_map]. rewrite map_app, (IH Q). f_equal.
  apply negb_true_iff in P.
  destruct it as [s|s|s]; cbn [render_item item_tokens map];
    rewrite (classify_plain s P); reflexivity.
Qed.

Lemma no_token_outside (items : list CmdItem) :
  existsb Argparse.is_outside (flat_map item_tokens items) = false.
Proof.
  induction items as [|it items IH]; [reflexivity|].
  cbn [flat_map]. rewrite existsb_app, IH. now destruct it.
Qed.

(** Once the positional is filled, further datasets are left over. *)
Lemma consume_filled (items : list CmdItem) :
  forall st, Argparse.pending st = [] ->
  exists st',
    Argparse.consume (flat_map item_tokens items) st = Some (Returned st')
    /\ Argparse.pending st' = []
    /\ Argparse.extras st' = (Argparse.extras st ++ datasets items)%list
    /\ Argparse.getattr (Argparse.ns st') "dataset_path"
       = Argparse.getattr (Argparse.ns st) "dataset_path"
    /\ Argparse.getattr (Argparse.ns st') "output_root_path"
       = last_output_root items
           (Argparse.getattr (Argparse.ns st) "output_root_path")
    /\ Argparse.getattr (Argparse.ns st') "fuse_replica_binary_path"
       = last_binary items
           (Argparse.getattr (Argparse.ns st) "fuse_replica_binary_path").
Proof.
  induction items as [|it items IH]; intros st P.
  - exists st. cbn. now rewrite app_nil_r.
  - destruct it as [s|s|s]; cbn [flat_map item_tokens app Argparse.consume].
    + rewrite P.
      destruct (IH (Argparse.mkState (Argparse.ns st) []
                      (Argparse.extras st ++ [s])%list) eq_refl)
        as [st' [E [P' [X [A [B C]]]]]].
      exists st'. cbn in X. rewrite <- app_assoc in X. now repeat split.
    + destruct (IH (Argparse.store output_root_argument s st) P)
        as [st' [E [P' [X [A [B C]]]]]].
      exists st'. now repeat split.
    + destruct (IH (Argparse.store binary_argument s st) P)
        as [st' [E [P' [X [A [B C]]]]]].
      exists st'. now repeat split.
Qed.

(** While the positional is pending, the first dataset fills it. *)
Lemma consume_pending (items : list CmdItem) :
  forall st, Argparse.pending st = [dataset_argument] ->
  exists st',
    Argparse.consume (flat_map item_tokens items) st = Some (Returned st')
    /\ match datasets items with
       | [] => Argparse.pending st' = [dataset_argument]
               /\ Argparse.extras st' = Argparse.extras st
       | d :: more =>
           Argparse.pending st' = []
           /\ Argparse.extras st' = (Argparse.extras st ++ more)%list
           /\ Argparse.getattr (Argparse.ns st') "dataset_path"
              = Some (Pathlib.of_string d)
       end
    /\ Argparse.getattr (Argparse.ns st') "output_root_path"
       = last_output_root items
           (Argparse.getattr (Argparse.ns st) "output_root_path")
    /\ Argparse.getattr (Argparse.ns st') "fuse_replica_binary_path"
       = last_binary items
           (Argparse.getattr (Argparse.ns st) "fuse_replica_binary_path").
Proof.
  induction items as [|it items IH]; intros st P.
  - exists st. cbn. now repeat split.
  - destruct it as [s|s|s]; cbn [flat_map item_tokens app Argparse.consume].
    + rewrite P.
      destruct (consume_filled items
                  (Argparse.mkState
                     ((Argparse.dest dataset_argument, Pathlib.of_string s)
                      :: Argparse.ns st) [] (Argparse.extras st)) eq_refl)
        as [st' [E [P' [X [A [B C]]]]]].
      exists st'. cbn [datasets flat_map app]. now repeat split.
    + destruct (IH (Argparse.store output_root_argument s st) P)
        as [st' [E [D [B C]]]].
      exists st'. now repeat split.
    + destruct (IH (Argparse.store binary_argument s st) P)
        as [st' [E [D [B C]]]].
      exists st'. now repeat split.
Qed.

(** What [parse_args] makes of a command line in the usual shape: with
    exactly one dataset it succeeds, otherwise it exits with status 2. *)
Lemma parse_render (items : list CmdItem) :
  forallb plain_item items = true ->
  match datasets items with
  | [d] =>
      exists args,
        Argparse.parse_args parser (render items) = Some (Returned args)
        /\ Argparse.getattr args "dataset_path" = Some (Pathlib.of_string d)
        /\ Argparse.getattr args "output_root_path"
           = last_output_root items None
        /\ Argparse.getattr args "fuse_replica_binary_path"
           = last_binary items None
  | _ =>
      Argparse.parse_args parser (render items) = Some (Raised (SystemExit 2))
  end.
Proof.
  intros H. unfold Argparse.parse_args. cbv zeta.
  rewrite (tokens_render items H), no_token_outside.
  change (Argparse.positionals parser) with [dataset_argument].
  destruct (consume_pending items
              (Argparse.mkState [] [dataset_argument] []) eq_refl)
    as [st [E [D [B C]]]].
  rewrite E. unfold Argparse.finish.
  destruct (datasets items) as [|d [|e more]].
  - destruct D as [P _]. now rewrite P.
  - destruct D as [P [X A]]. rewrite P, X. exists (Argparse.ns st).
    now repeat split.
  - destruct D as [P [X A]]. now rewrite P, X.
Qed.

(** C8: the entry point declares one required positional [dataset_path]
    and the two optional flags [--output_root_path] and
    [--fuse_replica_binary_path]; their values are turned into paths; and on
    a command line that gives the dataset once, it does one thing: a single
    call of the driver on the three values, a flag that is absent being
    [None].  Without the dataset, or with a second one, argparse exits
    before any call. *)
Theorem entry_point_calls_driver_once
  (host : Host) (items : list CmdItem) :
  forallb plain_item items = true ->
  parser
  = [Argparse.mkArgument ["-h"; "--help"] "help" Argparse.Help false;
     Argparse.mkArgument [] "dataset_path" Argparse.Store true;
     Argparse.mkArgument ["--output_root_path"] "output_root_path"
       Argparse.Store false;
     Argparse.mkArgument ["--fuse_replica_binary_path"]
       "fuse_replica_binary_path" Argparse.Store false]
  /\ main host (render items)
     = Some match datasets items with
            | [d] =>
                replica_reconstruction host (Pathlib.of_string d)
                  (last_output_root items None) (last_binary items None) ;;
                ret tt
            | _ => raise (SystemExit 2)
            end.
Proof.
  intros H. split; [reflexivity|].
  pose proof (parse_render items H) as P. unfold main.
  destruct (datasets items) as [|d [|e more]].
  - now rewrite P.
  - destruct P as [args [E [A [B C]]]]. now rewrite E, A, B, C.
  - now rewrite P.
Qed.

(** Parsing fails only by an exit with status 0 or 2. *)
Lemma consume_raises (n : nat) :
  forall toks st e,
    length toks <= n ->
    Argparse.consume toks st = Some (Raised e) ->
    e = SystemExit 0 \/ e = SystemExit 2.
Proof.
  induction n as [|n IH]; intros toks st e L C.
  - destruct toks; [discriminate C | cbn in L; lia].
  - destruct toks as [|t rest]; [discriminate C|]. cbn in L.
    destruct t as [s|a [v|]|]; cbn [Argparse.consume] in C.
    + assert (L' : length rest <= n) by lia.
      destruct (Argparse.pending st); exact (IH rest _ _ L' C).
    + assert (L' : length rest <= n) by lia.
      destruct (Argparse.action a); [|discriminate C].
      exact (IH rest _ _ L' C).
    + destruct (Argparse.action a).
      * destruct rest as [|[v| |] rest'];
          try (injection C as <-; now right).
        cbn in L. assert (L' : length rest' <= n) by lia.
        exact (IH rest' _ _ L' C).
      * injection C as <-. now left.
    + discriminate C.
Qed.

Lemma store_keeps_dataset (a : Argparse.Argument) (v : string)
  (st : Argparse.State) :
  has_dataset st -> has_dataset (Argparse.store a v st).
Proof.
  intros [P|[P [p A]]]; [now left|right]. split; [exact P|].
  unfold Argparse.store, Argparse.getattr in *. cbn [Argparse.ns find fst snd].
  destruct (String.eqb (Argparse.dest a) "dataset_path"); [now eexists|].
  now exists p.
Qed.

(** Parsing never loses the dataset: it stays pending or filled. *)
Lemma consume_keeps_dataset (n : nat) :
  forall toks st st',
    length toks <= n ->
    has_dataset st ->
    Argparse.consume toks st = Some (Returned st') ->
    has_dataset st'.
Proof.
  induction n as [|n IH]; intros toks st st' L D C.
  - destruct toks; [|cbn in L; lia]. now injection C as <-.
  - destruct toks as [|t rest]; [now injection C as <-|]. cbn in L.
    destruct t as [s|a [v|]|]; cbn [Argparse.consume] in C.
    + assert (L' : length rest <= n) by lia.
      destruct D as [P|[P [p A]]]; rewrite P in C;
        refine (IH rest _ _ L' _ C); right; split; try reflexivity.
      * now eexists.
      * now exists p.
    + assert (L' : length rest <= n) by lia.
      destruct (Argparse.action a); [|discriminate C].
      exact (IH rest _ _ L' (store_keeps_dataset a v st D) C).
    + destruct (Argparse.action a); [|discriminate C].
      destruct rest as [|[v| |] rest']; try discriminate C.
      cbn in L. assert (L' : length rest' <= n) by lia.
      exact (IH rest' _ _ L' (store_keeps_dataset a v st D) C).
    + discriminate C.
Qed.

(** The entry point on a command line in the usual shape with one
    dataset. *)
Lemma main_render (host : Host) (items : list CmdItem) (d : string) :
  forallb plain_item items = true ->
  datasets items = [d] ->
  main host (render items)
  = Some (replica_reconstruction host (Pathlib.of_string d)
            (last_output_root items None) (last_binary items None) ;;
          ret tt).
Proof.
  intros H D. pose proof (parse_render items H) as P. rewrite D in P.
  destruct P as [args [E [A [B C]]]]. unfold main. now rewrite E, A, B, C.
Qed.

Lemma last_binary_absent (items : list CmdItem) :
  no_binary_flag items = true ->
  forall init, last_binary items init = init.
Proof.
  unfold no_binary_flag, last_binary.
  induction items as [|it items IH]; intros H init; [reflexivity|].
  cbn [forallb] in H. apply andb_true_iff in H as [P Q].
  destruct it; try discriminate P; cbn [fold_left]; exact (IH Q init).
Qed.

(** What [x ;; ret tt] does: the effects of [x], its result dropped. *)
Lemma then_ret_tt {A : Type} (m : M A) (w : World) :
  (m ;; ret tt) w
  = (match fst (m w) with
     | Returned _ => Returned tt
     | Raised e => Raised e
     end, snd (m w)).
Proof. cbn. now destruct (m w) as [[a|e] w']. Qed.


(* ===================================================================== *)
(** ** Further properties of the driver *)
(* ===================================================================== *)

(** X1: when the binary is found but the output-directory helper raises,
    the call raises the helper's exception; by then it has printed nothing
    and launched nothing, and the file system is as the helper left it. *)
Theorem output_dir_failure_stops_the_call
  (env : Collaborators) (st : FS -> Path -> option PyExc)
  (pr : string -> option PyExc)
  (d : Path) (o b : option Path) (w : World) (e : PyExc) (files1 : FS) :
  st (fs w) (resolved_binary env b) = None ->
  regular_file (fs w) (resolved_binary env b) = true ->
  output_dir_helper env (dataset_name_of env d) o (fs w)
  = (Raised e, files1) ->
  fst (replica_reconstruction (mkHost env st pr) d o b w) = Raised e
  /\ printed (trace (snd (replica_reconstruction (mkHost env st pr) d o b w)))
     = printed (trace w)
  /\ launched (trace (snd (replica_reconstruction (mkHost env st pr) d o b w)))
     = launched (trace w)
  /\ fs (snd (replica_reconstruction (mkHost env st pr) d o b w)) = files1.
Proof.
  intros S H G. rewrite (host_run_output_dir_raises _ _ _ _ _ _ _ _ _ S H G).
  cbn [fst snd trace fs].
  rewrite !printed_app, !launched_app, printed_preamble, launched_preamble.
  cbn. now rewrite !app_nil_r.
Qed.

(** X2: when [subprocess.run] itself raises, the call raises the same
    exception, after the four progress lines have been printed. *)
Theorem launch_failure_after_progress_lines
  (env : Collaborators) (st : FS -> Path -> option PyExc)
  (pr : string -> option PyExc)
  (d : Path) (o b : option Path) (w : World)
  (out : Path) (files1 files2 : FS) (e : PyExc) :
  st (fs w) (resolved_binary env b) = None ->
  regular_file (fs w) (resolved_binary env b) = true ->
  output_dir_helper env (dataset_name_of env d) o (fs w)
  = (Returned out, files1) ->
  (forall line,
     In line (progress_lines (resolved_binary env b) d out) ->
     pr line = None) ->
  run_process env
    [Pathlib.to_string (resolved_binary env b); Pathlib.to_string d;
     "--mesh_output_path";
     Pathlib.to_string (out // "reconstructed_mesh.ply");
     "--esdf_output_path";
     Pathlib.to_string (out // "reconstructed_esdf.ply")] files1
  = (Raised e, files2) ->
  fst (replica_reconstruction (mkHost env st pr) d o b w) = Raised e
  /\ printed (trace (snd (replica_reconstruction (mkHost env st pr) d o b w)))
     = (printed (trace w)
        ++ [("Running executable at:" ++ Str.tab
             ++ Pathlib.to_string (resolved_binary env b))%string;
            ("On the dataset at:" ++ Str.tab ++ Pathlib.to_string d)%string;
            ("Outputting mesh at:" ++ Str.tab
             ++ Pathlib.to_string (out // "reconstructed_mesh.ply"))%string;
            ("Outputting esdf at:" ++ Str.tab
             ++ Pathlib.to_string (out // "reconstructed_esdf.ply"))%string])%list
  /\ fs (snd (replica_reconstruction (mkHost env st pr) d o b w)) = files2.
Proof.
  intros S H G A R. rewrite (host_run_launch _ _ _ _ _ _ _ _ _ S H G A).
  unfold fuse_replica_command. rewrite R. cbn [fst snd trace fs].
  rewrite !printed_app, printed_preamble. now repeat split.
Qed.

(** X3: a call returns exactly when nothing that it calls raises:
    [is_file] answers [True], the output-directory helper returns, the
    four lines are printed and [subprocess.run] returns. *)
Theorem returns_exactly_when_nothing_raises
  (env : Collaborators) (st : FS -> Path -> option PyExc)
  (pr : string -> option PyExc)
  (d : Path) (o b : option Path) (w : World) :
  (exists r,
     fst (replica_reconstruction (mkHost env st pr) d o b w) = Returned r)
  <-> (st (fs w) (resolved_binary env b) = None
       /\ regular_file (fs w) (resolved_binary env b) = true
       /\ exists out files1,
            output_dir_helper env (dataset_name_of env d) o (fs w)
            = (Returned out, files1)
            /\ (forall line,
                  In line (progress_lines (resolved_binary env b) d out) ->
                  pr line = None)
            /\ exists cp files2,
                 run_process env
                   (fuse_replica_command (resolved_binary env b) d out) files1
                 = (Returned cp, files2)).
Proof.
  split.
  - intros [r R].
    destruct (st (fs w) (resolved_binary env b)) as [e|] eqn:S.
    { rewrite (host_run_stat_fails _ _ _ _ _ _ _ _ S) in R. discriminate R. }
    destruct (regular_file (fs w) (resolved_binary env b)) eqn:H.
    2:{ rewrite (host_run_missing _ _ _ _ _ _ _ S H) in R. discriminate R. }
    destruct (output_dir_helper env (dataset_name_of env d) o (fs w))
      as [[out|e] f1] eqn:G.
    2:{ rewrite (host_run_output_dir_raises _ _ _ _ _ _ _ _ _ S H G) in R.
        discriminate R. }
    rewrite (host_run_resolved _ _ _ _ _ _ _ _ _ S H G) in R.
    destruct (printing pr _) as [evs [e|]] eqn:P; [discriminate R|].
    destruct (printing_none _ _ _ P) as [_ A].
    destruct (run_process env _ f1) as [[cp|e] f2] eqn:Q; [|discriminate R].
    split; [reflexivity|]. split; [reflexivity|]. exists out, f1.
    split; [reflexivity|]. split; [exact A|]. now exists cp, f2.
  - intros [S [H [out [f1 [G [A [cp [f2 R]]]]]]]].
    rewrite (host_run_resolved _ _ _ _ _ _ _ _ _ S H G), (printing_all _ _ A).
    rewrite R. now eexists.
Qed.

(** X4: an exception that comes out of a call has one of five origins:
    [is_file] raised it; or it is the missing-executable error, raised
    because [is_file] answered [False]; or the output-directory helper
    raised it; or a [print] of one of the four lines raised it; or
    [subprocess.run] raised it. *)
Theorem raised_exception_origin
  (env : Collaborators) (st : FS -> Path -> option PyExc)
  (pr : string -> option PyExc)
  (d : Path) (o b : option Path) (w : World) (e : PyExc) :
  fst (replica_reconstruction (mkHost env st pr) d o b w) = Raised e ->
  st (fs w) (resolved_binary env b) = Some e
  \/ (st (fs w) (resolved_binary env b) = None
      /\ regular_file (fs w) (resolved_binary env b) = false
      /\ e = Exception ("Cant find binary at:"
                        ++ Pathlib.to_string (resolved_binary env b)))
  \/ (st (fs w) (resolved_binary env b) = None
      /\ regular_file (fs w) (resolved_binary env b) = true
      /\ exists files1,
           output_dir_helper env (dataset_name_of env d) o (fs w)
           = (Raised e, files1))
  \/ (st (fs w) (resolved_binary env b) = None
      /\ regular_file (fs w) (resolved_binary env b) = true
      /\ exists out files1,
           output_dir_helper env (dataset_name_of env d) o (fs w)
           = (Returned out, files1)
           /\ exists line,
                In line (progress_lines (resolved_binary env b) d out)
                /\ pr line = Some e)
  \/ (st (fs w) (resolved_binary env b) = None
      /\ regular_file (fs w) (resolved_binary env b) = true
      /\ exists out files1 files2,
           output_dir_helper env (dataset_name_of env d) o (fs w)
           = (Returned out, files1)
           /\ (forall line,
                 In line (progress_lines (resolved_binary env b) d out) ->
                 pr line = None)
           /\ run_process env
                (fuse_replica_command (resolved_binary env b) d out) files1
              = (Raised e, files2)).
Proof.
  intros R.
  destruct (st (fs w) (resolved_binary env b)) as [e0|] eqn:S.
  { rewrite (host_run_stat_fails _ _ _ _ _ _ _ _ S) in R.
    injection R as <-. now left. }
  right.
  destruct (regular_file (fs w) (resolved_binary env b)) eqn:H.
  2:{ rewrite (host_run_missing _ _ _ _ _ _ _ S H) in R.
      injection R as <-. now left. }
  right.
  destruct (output_dir_helper env (dataset_name_of env d) o (fs w))
    as [[out|e0] f1] eqn:G.
  2:{ rewrite (host_run_output_dir_raises _ _ _ _ _ _ _ _ _ S H G) in R.
      injection R as <-. left. repeat split. now exists f1. }
  right.
  rewrite (host_run_resolved _ _ _ _ _ _ _ _ _ S H G) in R.
  destruct (printing pr _) as [evs [e0|]] eqn:P.
  { injection R as <-. left. repeat split. exists out, f1.
    split; [reflexivity|]. exact (proj1 (printing_some _ _ _ _ P)). }
  right. destruct (printing_none _ _ _ P) as [_ A].
  destruct (run_process env _ f1) as [[cp|e0] f2] eqn:Q; [discriminate R|].
  injection R as <-. repeat split. exists out, f1, f2. now repeat split.
Qed.

(** X5: whatever happens, a call launches at most one subprocess. *)
Theorem at_most_one_launch
  (env : Collaborators) (st : FS -> Path -> option PyExc)
  (pr : string -> option PyExc)
  (d : Path) (o b : option Path) (w : World) :
  exists L,
    launched (trace (snd (replica_reconstruction (mkHost env st pr) d o b w)))
    = (launched (trace w) ++ L)%list
    /\ length L <= 1.
Proof.
  destruct (host_run_trace env st pr d o b w) as [rest [E [_ [_ [_ N]]]]].
  exists (launched rest). split; [|exact N].
  now rewrite E, !launched_app, launched_preamble.
Qed.

(** X6: once the binary is found, the call asks for the output directory
    once, with the name that the dataset-name helper gave and with the
    caller's output root handed on as it is, [None] included. *)
Theorem output_root_forwarded_unchanged
  (env : Collaborators) (st : FS -> Path -> option PyExc)
  (pr : string -> option PyExc)
  (d : Path) (o b : option Path) (w : World) :
  st (fs w) (resolved_binary env b) = None ->
  regular_file (fs w) (resolved_binary env b) = true ->
  output_dir_requests
    (trace (snd (replica_reconstruction (mkHost env st pr) d o b w)))
  = (output_dir_requests (trace w) ++ [(dataset_name_of env d, o)])%list.
Proof.
  intros S H.
  five_ways env st pr d o b w; try congruence; rewrite Hrun; cbn [snd trace];
    rewrite !output_dir_requests_app, output_dir_requests_preamble;
    cbn [output_dir_requests app].
  - reflexivity.
  - now rewrite (proj1 (proj2 (proj2 (only_prints _)))).
  - rewrite output_dir_requests_app.
    now rewrite (proj1 (proj2 (proj2 (only_prints _)))).
Qed.

(** X7: the progress lines show what is run: in a call that launches the
    process, the four lines end in the executable, the dataset, the mesh
    path and the esdf path that stand at positions 0, 1, 3 and 5 of the
    launched command. *)
Theorem progress_lines_match_command_line
  (env : Collaborators) (st : FS -> Path -> option PyExc)
  (pr : string -> option PyExc)
  (d : Path) (o b : option Path) (w : World) (out : Path) (files1 : FS) :
  st (fs w) (resolved_binary env b) = None ->
  regular_file (fs w) (resolved_binary env b) = true ->
  output_dir_helper env (dataset_name_of env d) o (fs w)
  = (Returned out, files1) ->
  (forall line,
     In line (progress_lines (resolved_binary env b) d out) ->
     pr line = None) ->
  exists argv,
    launched (trace (snd (replica_reconstruction (mkHost env st pr) d o b w)))
    = (launched (trace w) ++ [argv])%list
    /\ printed (trace (snd (replica_reconstruction (mkHost env st pr) d o b w)))
       = (printed (trace w)
          ++ [("Running executable at:" ++ Str.tab ++ nth 0 argv "")%string;
              ("On the dataset at:" ++ Str.tab ++ nth 1 argv "")%string;
              ("Outputting mesh at:" ++ Str.tab ++ nth 3 argv "")%string;
              ("Outputting esdf at:" ++ Str.tab ++ nth 5 argv "")%string])%list.
Proof.
  intros S H G A. rewrite (host_run_launch _ _ _ _ _ _ _ _ _ S H G A).
  destruct (run_process env _ files1) as [r files2]. cbn [snd trace].
  exists (fuse_replica_command (resolved_binary env b) d out).
  rewrite !launched_app, !printed_app, launched_preamble, printed_preamble.
  split; reflexivity.
Qed.

(** X8: the driver writes nothing itself: when neither the
    output-directory helper nor the launched process changes the file
    system, a call leaves it as it was. *)
Theorem file_system_changes_come_from_collaborators
  (env : Collaborators) (st : FS -> Path -> option PyExc)
  (pr : string -> option PyExc)
  (d : Path) (o b : option Path) (w : World) :
  (forall n r files, snd (output_dir_helper env n r files) = files) ->
  (forall argv files, snd (run_process env argv files) = files) ->
  fs (snd (replica_reconstruction (mkHost env st pr) d o b w)) = fs w.
Proof.
  intros HO HR.
  five_ways env st pr d o b w; rewrite Hrun; cbn [snd fs]; try reflexivity.
  - rewrite <- (HO (dataset_name_of env d) o (fs w)). now rewrite Hdir.
  - rewrite <- (HO (dataset_name_of env d) o (fs w)). now rewrite Hdir.
  - rewrite <- (HO (dataset_name_of env d) o (fs w)), Hdir. cbn [snd].
    rewrite <- (HR (fuse_replica_command (resolved_binary env b) d dir) fs1).
    now rewrite Hproc.
Qed.

(** X9: when the output directory has at least one component, the two
    output arguments of the launched command are the directory's string
    followed by [/reconstructed_mesh.ply] and by
    [/reconstructed_esdf.ply]. *)
Theorem output_files_named_under_output_dir
  (env : Collaborators) (st : FS -> Path -> option PyExc)
  (pr : string -> option PyExc)
  (d : Path) (o b : option Path) (w : World) (out : Path) (files1 : FS) :
  st (fs w) (resolved_binary env b) = None ->
  regular_file (fs w) (resolved_binary env b) = true ->
  output_dir_helper env (dataset_name_of env d) o (fs w)
  = (Returned out, files1) ->
  (forall line,
     In line (progress_lines (resolved_binary env b) d out) ->
     pr line = None) ->
  Pathlib.parts out <> [] ->
  launched (trace (snd (replica_reconstruction (mkHost env st pr) d o b w)))
  = (launched (trace w)
     ++ [[Pathlib.to_string (resolved_binary env b);
          Pathlib.to_string d;
          "--mesh_output_path";
          (Pathlib.to_string out ++ "/reconstructed_mesh.ply")%string;
          "--esdf_output_path";
          (Pathlib.to_string out ++ "/reconstructed_esdf.ply")%string]])%list.
Proof.
  intros S H G A N. rewrite (host_run_launch _ _ _ _ _ _ _ _ _ S H G A).
  destruct (run_process env _ files1) as [r files2]. cbn [snd trace].
  rewrite !launched_app, launched_preamble. unfold fuse_replica_command.
  rewrite (to_string_truediv out _ mesh_plain N).
  rewrite (to_string_truediv out _ esdf_plain N).
  reflexivity.
Qed.

(** X10: every call, whatever its outcome, starts by asking for the
    dataset's name, asks for it once, and checks the existence of exactly
    one path, the resolved binary. *)
Theorem dataset_name_then_one_check
  (env : Collaborators) (st : FS -> Path -> option PyExc)
  (pr : string -> option PyExc)
  (d : Path) (o b : option Path) (w : World) :
  (exists rest,
     trace (snd (replica_reconstruction (mkHost env st pr) d o b w))
     = (trace w ++ EvDatasetName d :: rest)%list
     /\ dataset_name_requests rest = [])
  /\ checked (trace (snd (replica_reconstruction (mkHost env st pr) d o b w)))
     = (checked (trace w) ++ [resolved_binary env b])%list.
Proof.
  destruct (host_run_trace env st pr d o b w) as [rest [E [_ [N [C _]]]]].
  rewrite E. split.
  - eexists. split; [reflexivity|].
    rewrite dataset_name_requests_app, N. now destruct b.
  - rewrite !checked_app, checked_preamble, C. reflexivity.
Qed.

(* ===================================================================== *)
(** ** Further properties of the entry point *)
(* ===================================================================== *)

(** X11: on every command line of the modelled kind, the entry point does
    one of two things: it exits through argparse with status 0 or 2, or it
    makes a single call of the driver; it does nothing else. *)
Theorem entry_point_exits_or_calls_driver
  (host : Host) (argv : list string) (m : M unit) :
  main host argv = Some m ->
  (m = raise (SystemExit 0) \/ m = raise (SystemExit 2))
  \/ exists d o b, m = (replica_reconstruction host d o b ;; ret tt).
Proof.
  unfold main, Argparse.parse_args. cbv zeta.
  destruct (existsb Argparse.is_outside _); [discriminate|].
  destruct (Argparse.consume _ _) as [[st|e]|] eqn:C; [| |discriminate].
  - unfold Argparse.finish.
    destruct (existsb Argparse.required (Argparse.pending st)).
    + intros [= <-]. left. now right.
    + destruct (Argparse.extras st).
      * destruct (Argparse.getattr (Argparse.ns st) "dataset_path") as [p|];
          [|discriminate].
        intros [= <-]. right. now do 3 eexists.
      * intros [= <-]. left. now right.
  - intros [= <-]. left.
    destruct (consume_raises _ _ _ _ (le_n _) C) as [-> | ->]; auto.
Qed.

(** X12: a command line that argparse accepts always carries the dataset
    path, so the entry point then calls the driver on it and on the two
    optional values as parsed. *)
Theorem accepted_command_line_has_dataset
  (host : Host) (argv : list string) (args : Argparse.Namespace) :
  Argparse.parse_args parser argv = Some (Returned args) ->
  exists d,
    Argparse.getattr args "dataset_path" = Some d
    /\ main host argv
       = Some (replica_reconstruction host d
                 (Argparse.getattr args "output_root_path")
                 (Argparse.getattr args "fuse_replica_binary_path") ;;
               ret tt).
Proof.
  intros P. unfold main. rewrite P.
  unfold Argparse.parse_args in P. cbv zeta in P.
  destruct (existsb Argparse.is_outside _); [discriminate P|].
  destruct (Argparse.consume _ _) as [[st|e]|] eqn:C; try discriminate P.
  assert (D : has_dataset st).
  { refine (consume_keeps_dataset _ _ _ _ (le_n _) _ C). now left. }
  unfold Argparse.finish in P.
  destruct D as [Q|[Q [p A]]]; rewrite Q in P; [discriminate P|].
  cbn [existsb] in P. destruct (Argparse.extras st); [|discriminate P].
  injection P as <-. exists p. now rewrite A.
Qed.

(** X13: when the command line is in the usual shape and the binary it
    names, or the default one, is not a regular file, running the entry
    point ends in an exception, with no process launched and the file
    system untouched: the missing-executable error when [is_file] answers
    [False], the exception of [is_file] when that call raises. *)
Theorem entry_point_reports_missing_binary
  (env : Collaborators) (st : FS -> Path -> option PyExc)
  (pr : string -> option PyExc)
  (items : list CmdItem) (d : string) (w : World) :
  forallb plain_item items = true ->
  datasets items = [d] ->
  regular_file (fs w) (resolved_binary env (last_binary items None)) = false ->
  exists m,
    main (mkHost env st pr) (render items) = Some m
    /\ fst (m w)
       = match st (fs w) (resolved_binary env (last_binary items None)) with
         | None =>
             Raised (Exception
                       ("Cant find binary at:"
                        ++ Pathlib.to_string
                             (resolved_binary env (last_binary items None))))
         | Some e => Raised e
         end
    /\ launched (trace (snd (m w))) = launched (trace w)
    /\ fs (snd (m w)) = fs w.
Proof.
  intros H D R. eexists. split; [exact (main_render _ items d H D)|].
  rewrite then_ret_tt.
  destruct (st (fs w) (resolved_binary env (last_binary items None)))
    as [e|] eqn:S.
  - rewrite (host_run_stat_fails _ _ _ _ _ _ _ _ S). cbn [fst snd trace fs].
    rewrite launched_app, launched_preamble. now rewrite app_nil_r.
  - rewrite (host_run_missing _ _ _ _ _ _ _ S R). cbn [fst snd trace fs].
    rewrite launched_app, launched_preamble. now rewrite app_nil_r.
Qed.

(** X14: a command line without [--fuse_replica_binary_path] makes the
    driver look up the default binary and check that path. *)
Theorem entry_point_without_binary_flag_uses_default
  (env : Collaborators) (st : FS -> Path -> option PyExc)
  (pr : string -> option PyExc)
  (items : list CmdItem) (d : string) (w : World) :
  forallb plain_item items = true ->
  datasets items = [d] ->
  no_binary_flag items = true ->
  exists m rest,
    main (mkHost env st pr) (render items) = Some m
    /\ trace (snd (m w))
       = (trace w
          ++ EvDatasetName (Pathlib.of_string d) :: EvDefaultBinary
             :: EvIsFile (default_fuse_replica_binary_path env) :: rest)%list.
Proof.
  intros H D N. pose proof (main_render (mkHost env st pr) items d H D) as E.
  rewrite (last_binary_absent items N) in E.
  destruct (host_run_trace env st pr (Pathlib.of_string d)
              (last_output_root items None) None w) as [rest [T _]].
  exists (replica_reconstruction (mkHost env st pr) (Pathlib.of_string d)
            (last_output_root items None) None ;; ret tt), rest.
  split; [exact E|]. now rewrite then_ret_tt.
Qed.

(* ===================================================================== *)
(** ** Runs on concrete installations *)
(* ===================================================================== *)

(** The stub's directory is determined by the helper's arguments. *)
Lemma stub_output_dir_determined (status : Z) :
  output_dir_determined (Stub.env status).
Proof.
  intros n r f1 f2 o1 o2 f1' f2' E1 E2. cbn in E1, E2. congruence.
Qed.

(** Each of the four lines at hand goes out. *)
Ltac lines_go_out := intros line [<-|[<-|[<-|[<-|[]]]]]; reflexivity.

(** With the binary installed, a standard output that takes the four
    lines and a stub that exits with status 3, the call returns both
    paths. *)
Lemma exit_status_is_not_inspected_witness :
  fst (replica_reconstruction (Faults.ascii_stdout (Stub.env 3)) Stub.office0
         None None Stub.world)
  = Returned (Stub.output_dir // "reconstructed_mesh.ply",
              Stub.output_dir // "reconstructed_esdf.ply").
Proof.
  eapply exit_status_is_not_inspected with (status := 3%Z).
  - reflexivity.
  - reflexivity.
  - reflexivity.
  - lines_go_out.
  - reflexivity.
Defined.

(** With nothing installed, the call raises and launches nothing. *)
Lemma missing_binary_raises_before_launch_witness :
  fst (replica_reconstruction (Faults.name_limit (Stub.env 0)) Stub.office0
         None None Stub.bare)
  = Raised (Exception
              "Cant find binary at:/opt/nvblox/build/executables/fuse_replica")
  /\ launched
       (trace (snd (replica_reconstruction (Faults.name_limit (Stub.env 0))
                      Stub.office0 None None Stub.bare)))
     = [].
Proof.
  exact (missing_binary_raises_before_launch (Stub.env 0)
           (stat_failure (Faults.name_limit (Stub.env 0)))
           (print_failure (Faults.name_limit (Stub.env 0)))
           Stub.office0 None None Stub.bare eq_refl).
Defined.

(** The pair returned on the installation has the promised shape. *)
Lemma returned_paths_shape_witness :
  Pathlib.name
    (fst (Stub.paths (replica_reconstruction (Faults.ascii_stdout (Stub.env 1))
                        Stub.office0 None None Stub.world)))
  = "reconstructed_mesh.ply"
  /\ Pathlib.name
       (snd (Stub.paths (replica_reconstruction
                           (Faults.ascii_stdout (Stub.env 1))
                           Stub.office0 None None Stub.world)))
     = "reconstructed_esdf.ply".
Proof.
  pose proof (returned_paths_shape (Stub.env 1)
                (stat_failure (Faults.ascii_stdout (Stub.env 1)))
                (print_failure (Faults.ascii_stdout (Stub.env 1)))
                Stub.office0 None None Stub.world
                (snd (replica_reconstruction
                        (Faults.ascii_stdout (Stub.env 1))
                        Stub.office0 None None Stub.world))
                (Stub.output_dir // "reconstructed_mesh.ply")
                (Stub.output_dir // "reconstructed_esdf.ply")
                eq_refl) as [_ [N [E _]]].
  split; [exact N | exact E].
Defined.

(** A first run whose stub exits with status 0 and a later run, on another
    host and in a changed world, whose stub exits with status 1 return the
    same pair. *)
Lemma returned_paths_deterministic_witness :
  Stub.paths
    (replica_reconstruction
       (reliable (with_process (Stub.env 0) (run_process (Stub.env 0))))
       Stub.office0 None None Stub.world)
  = Stub.paths
      (replica_reconstruction
         (Faults.ascii_stdout
            (with_process (Stub.env 0) (run_process (Stub.env 1))))
         Stub.office0 None None Stub.later).
Proof.
  apply (returned_paths_deterministic (Stub.env 0)
           (run_process (Stub.env 0)) (run_process (Stub.env 1))
           (fun _ _ => None) (fun _ _ => None)
           (fun _ => None)
           (print_failure (Faults.ascii_stdout (Stub.env 0)))
           Stub.office0 None None Stub.world Stub.later
           (snd (replica_reconstruction
                   (reliable
                      (with_process (Stub.env 0) (run_process (Stub.env 0))))
                   Stub.office0 None None Stub.world))
           (snd (replica_reconstruction
                   (Faults.ascii_stdout
                      (with_process (Stub.env 0) (run_process (Stub.env 1))))
                   Stub.office0 None None Stub.later))).
  - apply stub_output_dir_determined.
  - reflexivity.
  - reflexivity.
Defined.

(** The one launch on the installation. *)
Lemma subprocess_command_line_witness :
  launched
    (trace (snd (replica_reconstruction (Faults.ascii_stdout (Stub.env 0))
                   Stub.office0 None None Stub.world)))
  = [["/opt/nvblox/build/executables/fuse_replica";
      "/data/replica/office0";
      "--mesh_output_path";
      "/opt/nvblox/evaluation/replica/output/office0/reconstructed_mesh.ply";
      "--esdf_output_path";
      "/opt/nvblox/evaluation/replica/output/office0/reconstructed_esdf.ply"]].
Proof.
  apply (subprocess_command_line (Stub.env 0)
           (stat_failure (Faults.ascii_stdout (Stub.env 0)))
           (print_failure (Faults.ascii_stdout (Stub.env 0)))
           Stub.office0 None None Stub.world Stub.output_dir
           (Stub.mkdir Stub.output_dir Stub.installed));
    [reflexivity | reflexivity | reflexivity | lines_go_out].
Defined.
(** On the installation the launch comes right after the four lines. *)
Lemma progress_lines_precede_launch_witness :
  exists before out files1,
    output_dir_helper (Stub.env 0) (dataset_name_of (Stub.env 0) Stub.office0)
      None (fs Stub.world)
    = (Returned out, files1)
    /\ trace (snd (replica_reconstruction (Faults.ascii_stdout (Stub.env 0))
                     Stub.office0 None None Stub.world))
       = (trace Stub.world ++ before
          ++ [EvPrint ("Running executable at:" ++ Str.tab
                       ++ Pathlib.to_string
                            (resolved_binary (Stub.env 0) None));
              EvPrint ("On the dataset at:" ++ Str.tab
                       ++ Pathlib.to_string Stub.office0);
              EvPrint ("Outputting mesh at:" ++ Str.tab
                       ++ Pathlib.to_string
                            (out // "reconstructed_mesh.ply"));
              EvPrint ("Outputting esdf at:" ++ Str.tab
                       ++ Pathlib.to_string
                            (out // "reconstructed_esdf.ply"));
              EvRun (fuse_replica_command Stub.binary Stub.office0
                       Stub.output_dir)])%list
    /\ printed before = [] /\ launched before = [].
Proof.
  apply (proj1 (progress_lines_precede_launch (Stub.env 0)
                  (stat_failure (Faults.ascii_stdout (Stub.env 0)))
                  (print_failure (Faults.ascii_stdout (Stub.env 0)))
                  Stub.office0 None None Stub.world)).
  reflexivity.
Defined.

(** The usual command line, with an output root and no binary path. *)
Lemma entry_point_calls_driver_once_witness :
  main (Faults.ascii_stdout (Stub.env 0))
    ["/data/replica/office0"; "--output_root_path"; "/tmp/out"]
  = Some (replica_reconstruction (Faults.ascii_stdout (Stub.env 0))
            Stub.office0 (Some (Pathlib.of_string "/tmp/out")) None ;;
          ret tt).
Proof.
  exact (proj2 (entry_point_calls_driver_once
                  (Faults.ascii_stdout (Stub.env 0))
                  [Dataset "/data/replica/office0"; OutputRoot "/tmp/out"]
                  eq_refl)).
Defined.

(** A binary name that is too long: [is_file] raises, no output directory
    is asked for and the file system stays as it was. *)
Lemma missing_binary_leaves_output_dir_alone_witness :
  output_dir_requests
    (trace (snd (replica_reconstruction (Faults.name_limit (Stub.env 0))
                   Stub.office0 (Some (Pathlib.of_string "/tmp/out"))
                   (Some Faults.long_binary) Stub.bare)))
  = []
  /\ fs (snd (replica_reconstruction (Faults.name_limit (Stub.env 0))
                Stub.office0 (Some (Pathlib.of_string "/tmp/out"))
                (Some Faults.long_binary) Stub.bare))
     = Stub.empty.
Proof.
  apply (missing_binary_leaves_output_dir_alone (Stub.env 0)
           (stat_failure (Faults.name_limit (Stub.env 0)))
           (print_failure (Faults.name_limit (Stub.env 0)))
           Stub.office0 (Some (Pathlib.of_string "/tmp/out"))
           (Some Faults.long_binary) Stub.bare).
  reflexivity.
Defined.

(** A binary path that names nothing is quoted in the message. *)
Lemma missing_binary_message_names_path_witness :
  exists msg,
    fst (replica_reconstruction (Faults.name_limit (Stub.env 0)) Stub.office0
           None (Some (Pathlib.of_string "build/fuse_replica")) Stub.world)
    = Raised (Exception msg)
    /\ msg = "Cant find binary at:build/fuse_replica"
    /\ String.prefix "Cant find binary at:" msg = true
    /\ Str.ends_with "build/fuse_replica" msg = true.
Proof.
  apply (missing_binary_message_names_path (Stub.env 0)
           (stat_failure (Faults.name_limit (Stub.env 0)))
           (print_failure (Faults.name_limit (Stub.env 0)))
           Stub.office0 None
           (Some (Pathlib.of_string "build/fuse_replica")) Stub.world);
    reflexivity.
Defined.

(** The output root cannot be written: the error comes out and nothing is
    printed or launched. *)
Lemma output_dir_failure_stops_the_call_witness :
  fst (replica_reconstruction (Faults.ascii_stdout Faults.read_only)
         Stub.office0 None None Stub.world)
  = Raised (OSError "Permission denied")
  /\ printed (trace (snd (replica_reconstruction
                            (Faults.ascii_stdout Faults.read_only)
                            Stub.office0 None None Stub.world)))
     = []
  /\ launched (trace (snd (replica_reconstruction
                             (Faults.ascii_stdout Faults.read_only)
                             Stub.office0 None None Stub.world)))
     = []
  /\ fs (snd (replica_reconstruction (Faults.ascii_stdout Faults.read_only)
                Stub.office0 None None Stub.world))
     = Stub.installed.
Proof.
  apply (output_dir_failure_stops_the_call Faults.read_only
           (stat_failure (Faults.ascii_stdout Faults.read_only))
           (print_failure (Faults.ascii_stdout Faults.read_only))
           Stub.office0 None None Stub.world (OSError "Permission denied")
           Stub.installed);
    reflexivity.
Defined.

(** The binary cannot be executed: the error comes out of the call. *)
Lemma launch_failure_after_progress_lines_witness :
  fst (replica_reconstruction (Faults.ascii_stdout Faults.not_executable)
         Stub.office0 None None Stub.world)
  = Raised (OSError "Permission denied").
Proof.
  apply (launch_failure_after_progress_lines Faults.not_executable
           (stat_failure (Faults.ascii_stdout Faults.not_executable))
           (print_failure (Faults.ascii_stdout Faults.not_executable))
           Stub.office0 None None Stub.world Stub.output_dir
           (Stub.mkdir Stub.output_dir Stub.installed)
           (Stub.mkdir Stub.output_dir Stub.installed)
           (OSError "Permission denied"));
    [reflexivity | reflexivity | reflexivity | lines_go_out | reflexivity].
Defined.

(** A dataset name that standard output cannot encode: the exception is
    the one of the second [print]. *)
Lemma raised_exception_origin_witness :
  exists line,
    In line (progress_lines Stub.binary Faults.cafe
               (Stub.default_output_root // Pathlib.name Faults.cafe))
    /\ print_failure (Faults.ascii_stdout (Stub.env 0)) line
       = Some (UnicodeEncodeError "'ascii' codec can't encode character").
Proof.
  destruct (raised_exception_origin (Stub.env 0)
              (stat_failure (Faults.ascii_stdout (Stub.env 0)))
              (print_failure (Faults.ascii_stdout (Stub.env 0)))
              Faults.cafe None None Stub.world
              (UnicodeEncodeError "'ascii' codec can't encode character")
              eq_refl)
    as [H|[[_ [H _]]|[[_ [_ [f H]]]|[[_ [_ [out [f [G L]]]]]|
         [_ [_ [out [f [f2 [G [A R]]]]]]]]]]].
  - discriminate H.
  - discriminate H.
  - discriminate H.
  - injection G as <- _. exact L.
  - discriminate R.
Defined.

(** The default output root is asked for as [None]. *)
Lemma output_root_forwarded_unchanged_witness :
  output_dir_requests
    (trace (snd (replica_reconstruction (Faults.ascii_stdout (Stub.env 0))
                   Stub.office0 None None Stub.world)))
  = [("office0", None)].
Proof.
  apply (output_root_forwarded_unchanged (Stub.env 0)
           (stat_failure (Faults.ascii_stdout (Stub.env 0)))
           (print_failure (Faults.ascii_stdout (Stub.env 0)))
           Stub.office0 None None Stub.world);
    reflexivity.
Defined.

(** The lines printed on the installation quote the launched command. *)
Lemma progress_lines_match_command_line_witness :
  exists argv,
    launched
      (trace (snd (replica_reconstruction (Faults.ascii_stdout (Stub.env 0))
                     Stub.office0 None None Stub.world)))
    = [argv]
    /\ printed
         (trace (snd (replica_reconstruction
                        (Faults.ascii_stdout (Stub.env 0))
                        Stub.office0 None None Stub.world)))
       = [("Running executable at:" ++ Str.tab ++ nth 0 argv "")%string;
          ("On the dataset at:" ++ Str.tab ++ nth 1 argv "")%string;
          ("Outputting mesh at:" ++ Str.tab ++ nth 3 argv "")%string;
          ("Outputting esdf at:" ++ Str.tab ++ nth 5 argv "")%string].
Proof.
  apply (progress_lines_match_command_line (Stub.env 0)
           (stat_failure (Faults.ascii_stdout (Stub.env 0)))
           (print_failure (Faults.ascii_stdout (Stub.env 0)))
           Stub.office0 None None Stub.world Stub.output_dir
           (Stub.mkdir Stub.output_dir Stub.installed));
    [reflexivity | reflexivity | reflexivity | lines_go_out].
Defined.

(** Collaborators that write nothing leave the installation as it was,
    also when a line is rejected on the way. *)
Lemma file_system_changes_come_from_collaborators_witness :
  fs (snd (replica_reconstruction (Faults.ascii_stdout Faults.quiet)
             Faults.cafe None None Stub.world))
  = Stub.installed.
Proof.
  apply (file_system_changes_come_from_collaborators Faults.quiet
           (stat_failure (Faults.ascii_stdout Faults.quiet))
           (print_failure (Faults.ascii_stdout Faults.quiet))
           Faults.cafe None None Stub.world);
    intros; reflexivity.
Defined.

(** The output arguments on the installation. *)
Lemma output_files_named_under_output_dir_witness :
  launched
    (trace (snd (replica_reconstruction (Faults.ascii_stdout (Stub.env 0))
                   Stub.office0 None None Stub.world)))
  = [["/opt/nvblox/build/executables/fuse_replica";
      "/data/replica/office0";
      "--mesh_output_path";
      ("/opt/nvblox/evaluation/replica/output/office0"
       ++ "/reconstructed_mesh.ply")%string;
      "--esdf_output_path";
      ("/opt/nvblox/evaluation/replica/output/office0"
       ++ "/reconstructed_esdf.ply")%string]].
Proof.
  apply (output_files_named_under_output_dir (Stub.env 0)
           (stat_failure (Faults.ascii_stdout (Stub.env 0)))
           (print_failure (Faults.ascii_stdout (Stub.env 0)))
           Stub.office0 None None Stub.world Stub.output_dir
           (Stub.mkdir Stub.output_dir Stub.installed));
    [reflexivity | reflexivity | reflexivity | lines_go_out | discriminate].
Defined.

(** Asking for help exits with status 0. *)
Lemma entry_point_exits_or_calls_driver_witness :
  (raise (SystemExit 0) = raise (A := unit) (SystemExit 0)
   \/ raise (SystemExit 0) = raise (A := unit) (SystemExit 2))
  \/ exists d o b,
       raise (SystemExit 0)
       = (replica_reconstruction (Faults.ascii_stdout (Stub.env 0)) d o b ;;
          ret tt).
Proof.
  apply (entry_point_exits_or_calls_driver
           (Faults.ascii_stdout (Stub.env 0)) ["-h"]).
  reflexivity.
Defined.

(** The dataset alone is an accepted command line. *)
Lemma accepted_command_line_has_dataset_witness :
  exists d,
    Argparse.getattr [("dataset_path", Stub.office0)] "dataset_path" = Some d
    /\ main (Faults.ascii_stdout (Stub.env 0)) ["/data/replica/office0"]
       = Some (replica_reconstruction (Faults.ascii_stdout (Stub.env 0)) d
                 (Argparse.getattr [("dataset_path", Stub.office0)]
                    "output_root_path")
                 (Argparse.getattr [("dataset_path", Stub.office0)]
                    "fuse_replica_binary_path") ;;
               ret tt).
Proof.
  apply (accepted_command_line_has_dataset
           (Faults.ascii_stdout (Stub.env 0))
           ["/data/replica/office0"] [("dataset_path", Stub.office0)]).
  reflexivity.
Defined.

(** A binary path that names nothing, given on the command line. *)
Lemma entry_point_reports_missing_binary_witness :
  exists m,
    main (Faults.name_limit (Stub.env 0))
      ["/data/replica/office0"; "--fuse_replica_binary_path";
       "build/fuse_replica"]
    = Some m
    /\ fst (m Stub.world)
       = Raised (Exception "Cant find binary at:build/fuse_replica")
    /\ launched (trace (snd (m Stub.world))) = []
    /\ fs (snd (m Stub.world)) = Stub.installed.
Proof.
  exact (entry_point_reports_missing_binary (Stub.env 0)
           (stat_failure (Faults.name_limit (Stub.env 0)))
           (print_failure (Faults.name_limit (Stub.env 0)))
           [Dataset "/data/replica/office0"; Binary "build/fuse_replica"]
           "/data/replica/office0" Stub.world eq_refl eq_refl eq_refl).
Defined.

(** A command line with an output root and no binary path. *)
Lemma entry_point_without_binary_flag_uses_default_witness :
  exists m rest,
    main (Faults.name_limit (Stub.env 0))
      ["/data/replica/office0"; "--output_root_path"; "/tmp/out"]
    = Some m
    /\ trace (snd (m Stub.bare))
       = EvDatasetName Stub.office0 :: EvDefaultBinary
         :: EvIsFile Stub.binary :: rest.
Proof.
  apply (entry_point_without_binary_flag_uses_default (Stub.env 0)
           (stat_failure (Faults.name_limit (Stub.env 0)))
           (print_failure (Faults.name_limit (Stub.env 0)))
           [Dataset "/data/replica/office0"; OutputRoot "/tmp/out"]
           "/data/replica/office0" Stub.bare);
    reflexivity.
Defined.
